(** * cr-renderer: font lookup, text schema and canvas sizing

    A shallow embedding of the pure logic of [cr_renderer/fonts.py],
    [cr_renderer/schema.py] and [cr_renderer/renderer.py], and the
    properties the design document states about it.

    Conventions of the embedding.
    - Python [str] is [string]; the characters are ASCII.  The case
      functions below follow CPython on code points below 128 and leave
      every other byte unchanged and uncased.
    - A Python [dict] keeps insertion order and [FontManager.lookup] reads
      the first value of the font dictionary, so the dictionary is an
      association list read at the first matching key.
    - An exception is a value of [exn]; a call that can raise returns [res].
    - Python [float] is binary64.  The module [Binary64] embeds
      [_get_scale_size] on the primitive floats, with the exceptions of
      the float operations; [Renderer._get_scale_size] reads the same
      function in exact rational arithmetic ([Q]), for the properties
      whose operations are exact.  The built-in [round] is rounding half
      to even. *)

From Stdlib Require Import String Ascii List Bool Arith ZArith QArith Qround Lia.
From Stdlib Require Import Lqa.
From Stdlib Require Floats.
Import ListNotations.

Local Open Scope string_scope.
Local Open Scope list_scope.

(** ** Exceptions and results *)

Inductive exn : Type :=
| AssertionError (msg : string)
| IndexError
| StopIteration
| ZeroDivisionError
| FileNotFoundError
| UnpicklingError
| ValidationError (fields : list string)
| OverflowError
| ValueError.

Inductive res (A : Type) : Type :=
| Ok (a : A)
| Raise (e : exn).

Arguments Ok {A} a.
Arguments Raise {A} e.

Definition res_bind {A B : Type} (r : res A) (k : A -> res B) : res B :=
  match r with
  | Ok a => k a
  | Raise e => Raise e
  end.

(** ** Python string methods used by the sources *)

Module PyStr.

Definition is_upper (c : ascii) : bool :=
  let n := nat_of_ascii c in (65 <=? n)%nat && (n <=? 90)%nat.

Definition is_lower (c : ascii) : bool :=
  let n := nat_of_ascii c in (97 <=? n)%nat && (n <=? 122)%nat.

Definition is_cased (c : ascii) : bool := is_upper c || is_lower c.

Definition to_lower (c : ascii) : ascii :=
  if is_upper c then ascii_of_nat (nat_of_ascii c + 32) else c.

Definition to_upper (c : ascii) : ascii :=
  if is_lower c then ascii_of_nat (nat_of_ascii c - 32) else c.

(** [str.lower()] *)
Fixpoint lower (s : string) : string :=
  match s with
  | EmptyString => EmptyString
  | String c rest => String (to_lower c) (lower rest)
  end.

(** [str.title()]: a character that follows a cased character is
    lowercased, any other character is titlecased. *)
Fixpoint title_from (previous_is_cased : bool) (s : string) : string :=
  match s with
  | EmptyString => EmptyString
  | String c rest =>
      String (if previous_is_cased then to_lower c else to_upper c)
             (title_from (is_cased c) rest)
  end.

Definition title (s : string) : string := title_from false s.

(** [str.replace(old, new)] for a non-empty [old]: the occurrences are
    found left to right and do not overlap.  [skip] counts the characters
    of a matched occurrence that are still to be dropped. *)
Fixpoint replace_from (old new : string) (skip : nat) (s : string) : string :=
  match s with
  | EmptyString => EmptyString
  | String c rest =>
      match skip with
      | S k => replace_from old new k rest
      | O =>
          if prefix old s
          then new ++ replace_from old new (String.length old - 1) rest
          else String c (replace_from old new 0 rest)
      end
  end.

Definition replace (old new s : string) : string := replace_from old new 0 s.

(** [old in s] *)
Fixpoint contains (old s : string) : bool :=
  prefix old s ||
  match s with
  | EmptyString => false
  | String _ rest => contains old rest
  end.

(** [str.split(sep)] for a one-character separator: every occurrence of
    the separator ends a field, so the result is never empty. *)
Fixpoint split_from (sep : ascii) (field : string) (s : string) : list string :=
  match s with
  | EmptyString => [field]
  | String c rest =>
      if Ascii.eqb c sep
      then field :: split_from sep EmptyString rest
      else split_from sep (field ++ String c EmptyString) rest
  end.

Definition split (sep : ascii) (s : string) : list string :=
  split_from sep EmptyString s.

(** [c.isspace()] on ASCII: the space, the controls 9 to 13 and the
    separators 28 to 31. *)
Definition is_space (c : ascii) : bool :=
  let n := nat_of_ascii c in
  (n =? 32)%nat || ((9 <=? n)%nat && (n <=? 13)%nat)
  || ((28 <=? n)%nat && (n <=? 31)%nat).

(** [str.split()] without a separator: the fields are the maximal runs of
    characters that are not whitespace. *)
Fixpoint split_whitespace_from (field : string) (s : string) : list string :=
  match s with
  | EmptyString =>
      match field with
      | EmptyString => []
      | _ => [field]
      end
  | String c rest =>
      if is_space c
      then match field with
           | EmptyString => split_whitespace_from EmptyString rest
           | _ => field :: split_whitespace_from EmptyString rest
           end
      else split_whitespace_from (field ++ String c EmptyString) rest
  end.

Definition split_whitespace (s : string) : list string :=
  split_whitespace_from EmptyString s.

(** [s.isascii()] *)
Fixpoint is_ascii (s : string) : bool :=
  match s with
  | EmptyString => true
  | String c rest => (nat_of_ascii c <? 128)%nat && is_ascii rest
  end.

(** [c in s] for a character. *)
Fixpoint has_char (c : ascii) (s : string) : bool :=
  match s with
  | EmptyString => false
  | String a rest => Ascii.eqb a c || has_char c rest
  end.

(** [x in xs] for a collection of strings. *)
Definition mem (x : string) (xs : list string) : bool :=
  existsb (String.eqb x) xs.

End PyStr.

(** ** fonts.py *)

Module Fonts.

Definition FONT_WEIGHTS : list string :=
  ["thin"; "light"; "extralight"; "regular"; "medium"; "semibold"; "bold";
   "extrabold"; "black"].

Definition FONT_STYLES : list string :=
  ["regular"; "bold"; "italic"; "bolditalic"].

Definition FONT_MAP : list (string * string) :=
  [("Arkana Script", "Arkana");
   ("Blogger", "Blogger Sans");
   ("Delius Swash", "Delius Swash Caps");
   ("Elsie Swash", "Elsie Swash Caps");
   ("Gluk Glametrix", "Gluk Foglihtenno06");
   ("Gluk Znikomitno25", "Gluk Foglihtenno06");
   ("Im Fell", "Im Fell Dw Pica Sc");
   ("Medieval Sharp", "Medievalsharp");
   ("Playlist Caps", "Playlist");
   ("Rissa Typeface", "Rissatypeface");
   ("Selima", "Selima Script");
   ("Six", "Six Caps");
   ("V T323", "Vt323");
   ("Different Summer", "Montserrat");
   ("Dukomdesign Constantine", "Montserrat");
   ("Sunday", "Montserrat")].

(** [d.get(key)] on a dictionary kept as an association list. *)
Fixpoint dict_get {V : Type} (d : list (string * V)) (key : string) : option V :=
  match d with
  | [] => None
  | (k, v) :: rest => if String.eqb k key then Some v else dict_get rest key
  end.

(** The five suffixes [normalize_family] deletes, in the order of the
    source. *)
Definition SUFFIXES : list string :=
  [" Bold"; " Regular"; " Light"; " Italic"; " Medium"].

Definition normalize_family (name : string) : string :=
  let name := PyStr.title (PyStr.replace "_" " " name) in
  let name := PyStr.replace " Bold" "" name in
  let name := PyStr.replace " Regular" "" name in
  let name := PyStr.replace " Light" "" name in
  let name := PyStr.replace " Italic" "" name in
  let name := PyStr.replace " Medium" "" name in
  match dict_get FONT_MAP name with
  | Some canonical => canonical
  | None => name
  end.

(** The name [normalize_family] looks up in [FONT_MAP]. *)
Definition stripped (name : string) : string :=
  PyStr.replace " Medium" ""
    (PyStr.replace " Italic" ""
       (PyStr.replace " Light" ""
          (PyStr.replace " Regular" ""
             (PyStr.replace " Bold" ""
                (PyStr.title (PyStr.replace "_" " " name)))))).

(** [name.replace("_", " ").lower().split(" ")[-1]] *)
Definition suffix_key (name : string) : string :=
  last (PyStr.split " " (PyStr.lower (PyStr.replace "_" " " name))) "".

(** The key as the design document words it: the last
    whitespace-delimited token of the lowercased name, underscores read as
    spaces.  It is compared with [suffix_key] below. *)
Definition last_whitespace_token (name : string) : string :=
  last (PyStr.split_whitespace (PyStr.lower (PyStr.replace "_" " " name))) "".

Definition get_font_weight (name default : string) : string :=
  let key := suffix_key name in
  if PyStr.mem key FONT_WEIGHTS then key else default.

Definition get_font_style (name default : string) : string :=
  let key := suffix_key name in
  if PyStr.mem key FONT_STYLES then key else default.

(** A font face record [{fontFamily, fontWeight?, fontStyle?, bytes}]:
    [lookup] reads the weight and the style with [dict.get] and a default,
    the family name and the bytes with a subscript. *)
Record Face : Type := mkFace {
  fontFamily : string;
  fontWeight : option string;
  fontStyle : option string;
  bytes : list Byte.byte
}.

(** [font.get(key, "regular")] *)
Definition get_or_regular (field : option string) : string :=
  match field with
  | Some v => v
  | None => "regular"
  end.

Definition FontDict : Type := list (string * list Face).

(** [lookup] writes warnings to the module logger and may raise: a
    computation is the list of messages logged so far and its outcome. *)
Definition M (A : Type) : Type := (list string * res A)%type.

Definition ret {A : Type} (a : A) : M A := ([], Ok a).

Definition raise {A : Type} (e : exn) : M A := ([], Raise e).

Definition warning (msg : string) : M unit := ([msg], Ok tt).

Definition bind {A B : Type} (m : M A) (k : A -> M B) : M B :=
  match m with
  | (logged, Ok a) => let (later, r) := k a in (logged ++ later, r)
  | (logged, Raise e) => (logged, Raise e)
  end.

Notation "x <- m ;; k" := (bind m (fun x => k))
  (at level 61, m at next level, right associativity).
Notation "m ;;; k" := (bind m (fun _ => k))
  (at level 61, right associativity).

(** A computation that raises no [AssertionError]. *)
Definition no_assertion {A : Type} (m : M A) : Prop :=
  forall msg, snd m <> Raise (AssertionError msg).

(** [family[0]['fontFamily']], evaluated inside the fallback warnings. *)
Definition first_family_name (family : list Face) : M string :=
  match family with
  | [] => raise IndexError
  | font :: _ => ret (fontFamily font)
  end.

Definition fallback_message (family : list Face) : M unit :=
  name <- first_family_name family ;;
  warning ("Font family fallback to " ++ name ++ ".").

(** The loop [for i, family_name in enumerate([font_family, "Montserrat"])]:
    [i] is the index of the head of [names]; the loop is left at the first
    name whose normalized form is a key, and ends with the initial
    [family = []] when there is none. *)
Fixpoint family_loop (fonts : FontDict) (font_family : string)
    (i : nat) (names : list string) : M (list Face) :=
  match names with
  | [] => ret []
  | family_name :: rest =>
      match dict_get fonts (normalize_family family_name) with
      | Some family =>
          (if (0 <? i)%nat then fallback_message family else ret tt) ;;;
          ret family
      | None =>
          warning ("Font family not found: " ++ font_family) ;;;
          family_loop fonts font_family (S i) rest
      end
  end.

(** [if not family: family = next(iter(self._fonts.values()))] *)
Definition first_family (fonts : FontDict) (family : list Face) : M (list Face) :=
  match family with
  | _ :: _ => ret family
  | [] =>
      match fonts with
      | [] => raise StopIteration
      | (_, family) :: _ => fallback_message family ;;; ret family
      end
  end.

Definition face_matches (font_weight font_style : string) (font : Face) : bool :=
  String.eqb (get_or_regular (fontWeight font)) font_weight
  && String.eqb (get_or_regular (fontStyle font)) font_style.

(** The face search and its [except StopIteration] branch. *)
Definition select_face (family : list Face) (font_weight font_style : string)
  : M Face :=
  match find (face_matches font_weight font_style) family with
  | Some font => ret font
  | None =>
      match family with
      | [] => raise IndexError
      | font :: _ =>
          warning ("Font style for " ++ fontFamily font ++ " not found: "
                   ++ font_weight ++ " " ++ font_style ++ ", fallback to "
                   ++ get_or_regular (fontWeight font) ++ " "
                   ++ get_or_regular (fontStyle font)) ;;;
          ret font
      end
  end.

(** [FontManager.lookup]; [fonts] is the attribute [self._fonts]. *)
Definition lookup (fonts : option FontDict)
    (font_family font_weight font_style : string) : M (list Byte.byte) :=
  match fonts with
  | None => raise (AssertionError "Fonts not loaded yet.")
  | Some fonts =>
      if negb (PyStr.mem font_weight FONT_WEIGHTS)
      then raise (AssertionError ("Invalid font weight: " ++ font_weight))
      else if negb (PyStr.mem font_style FONT_STYLES)
      then raise (AssertionError ("Invalid font style: " ++ font_style))
      else
        family <- family_loop fonts font_family 0 [font_family; "Montserrat"] ;;
        family <- first_family fonts family ;;
        let font_weight := get_font_weight font_family font_weight in
        let font_style := get_font_style font_family font_style in
        font <- select_face family font_weight font_style ;;
        ret (bytes font)
  end.

(** Outcome of opening and unpickling the file at [input_path]: the two
    library calls of [load] either raise or return the pickled object. *)
Inductive blob : Type :=
| Absent
| Corrupt
| Decoded (obj : option FontDict).

(** [FontManager.load]: the new value of [self._fonts] and the outcome. *)
Definition load (fonts : option FontDict) (source : blob)
  : option FontDict * res unit :=
  match source with
  | Absent => (fonts, Raise FileNotFoundError)
  | Corrupt => (fonts, Raise UnpicklingError)
  | Decoded obj =>
      match obj with
      | None => (obj, Raise (AssertionError "No font loaded."))
      | Some _ => (obj, Ok tt)
      end
  end.

(** [FontManager.__init__]: [self._fonts = None], then [load]. *)
Definition init (source : blob) : option FontDict * res unit :=
  load None source.

End Fonts.

(** ** schema.py *)

Module Schema.

(** [Optional[Union[bool, str, Numeric]]] without the [None]. *)
Inductive MapValue : Type :=
| VBool (b : bool)
| VStr (s : string)
| VNum (n : Q).

Record TextMapItem : Type := mkTextMapItem {
  startIndex : Z;
  endIndex : Z;
  value : option MapValue;
  type : option string
}.

(** The text effects, discriminated by their [type] literal; every one
    carries [enabled]. *)
Inductive TextEffect : Type :=
| textBox (enabled : bool) (color : string) (blendOpacity spread radius : Q)
| curved (enabled : bool) (angle : Q) (baseWidth : option Q)
| outline (enabled : bool) (color : string) (opacity thickness : Q)
    (hasInnerText : bool)
| dropShadow (enabled : bool) (color : string)
    (opacity blendOpacity size blur distance angle : Q)
| echo (enabled : bool) (distance angle : Q)
| glitch (enabled : bool) (size angle : Q)
| reflection (enabled : bool) (size distance transparency : Q).

Record TextProperty : Type := mkTextProperty {
  text : string;
  fontSize : Q;
  font : string;
  lineHeight : Q;
  textAlign : string;
  capitalize : bool;
  letterSpacing : Q;
  colorMap : list TextMapItem;
  wordBreak : option string;
  underline : option bool;
  boldMap : option (list TextMapItem);
  italicMap : option (list TextMapItem);
  underlineMap : option (list TextMapItem);
  linkMap : option (list TextMapItem);
  lineMap : option (list TextMapItem);
  opacityMap : option (list TextMapItem);
  weightMap : option (list TextMapItem);
  styleMap : option (list TextMapItem);
  effects : option (list TextEffect)
}.

Definition TEXT_ALIGN : list string := ["left"; "right"; "center"; "justify"].

Definition WORD_BREAK : list string := ["breakWord"; "breakAll"].

(** [len(s)] *)
Definition len (s : string) : Z := Z.of_nat (String.length s).

Section Construction.

(** The substitution of character references that [html.unescape] applies
    to a string that has an ampersand: the table of HTML entities is data
    of the Python library. *)
Variable replace_charrefs : string -> string.

(** [html.unescape]: a string without an ampersand is returned as it is. *)
Definition html_unescape (s : string) : string :=
  if PyStr.contains "&" s then replace_charrefs s else s.

(** The field validator [unescape]. *)
Definition unescape (value : string) : string := html_unescape value.

(** The model validator [check_linemap], run on the validated fields. *)
Definition check_linemap (self : TextProperty) : TextProperty :=
  match lineMap self with
  | None =>
      {| text := text self; fontSize := fontSize self; font := font self;
         lineHeight := lineHeight self; textAlign := textAlign self;
         capitalize := capitalize self; letterSpacing := letterSpacing self;
         colorMap := colorMap self; wordBreak := wordBreak self;
         underline := underline self; boldMap := boldMap self;
         italicMap := italicMap self; underlineMap := underlineMap self;
         linkMap := linkMap self;
         lineMap :=
           Some [mkTextMapItem 0 (len (text self) - 1)
                   (Some (VStr "line")) (Some "line")];
         opacityMap := opacityMap self; weightMap := weightMap self;
         styleMap := styleMap self; effects := effects self |}
  | Some _ => self
  end.

(** The field constraints: [Field(gt=0.0)] and the [Literal] types.  The
    names of the fields that fail are collected, as pydantic reports them. *)
Definition field_errors (data : TextProperty) : list string :=
  (if Qlt_le_dec 0 (fontSize data) then [] else ["fontSize"])
  ++ (if Qlt_le_dec 0 (lineHeight data) then [] else ["lineHeight"])
  ++ (if PyStr.mem (textAlign data) TEXT_ALIGN then [] else ["textAlign"])
  ++ match wordBreak data with
     | Some w => if PyStr.mem w WORD_BREAK then [] else ["wordBreak"]
     | None => []
     end.

(** The constructor [TextProperty]: the fields are validated, [text] goes through
    its validator, and [check_linemap] runs on the result. *)
Definition TextProperty_new (data : TextProperty) : res TextProperty :=
  match field_errors data with
  | [] =>
      Ok (check_linemap
            {| text := unescape (text data); fontSize := fontSize data;
               font := font data; lineHeight := lineHeight data;
               textAlign := textAlign data; capitalize := capitalize data;
               letterSpacing := letterSpacing data;
               colorMap := colorMap data; wordBreak := wordBreak data;
               underline := underline data; boldMap := boldMap data;
               italicMap := italicMap data;
               underlineMap := underlineMap data; linkMap := linkMap data;
               lineMap := lineMap data; opacityMap := opacityMap data;
               weightMap := weightMap data; styleMap := styleMap data;
               effects := effects data |})
  | errors => Raise (ValidationError errors)
  end.

End Construction.

(** A design element after validation. *)
Record DesignElement : Type := mkDesignElement {
  uuid : string;
  element_type : string;
  width : Q;
  height : Q;
  angle : Q;
  left : Q;
  top : Q;
  opacity : Q
}.

(** The keyword arguments of [DesignElement]: the fields that have a
    default may be left out. *)
Record DesignElementData : Type := mkDesignElementData {
  data_uuid : string;
  data_type : string;
  data_width : Q;
  data_height : Q;
  data_angle : option Q;
  data_left : option Q;
  data_top : option Q;
  data_opacity : option Q
}.

Definition with_default (field : option Q) (default : Q) : Q :=
  match field with
  | Some given => given
  | None => default
  end.

(** [Field(gt=0.0)] on [width] and [height], [Field(ge=0.0, le=1.0)] on an
    [opacity] that is given; a default is not validated. *)
Definition design_errors (data : DesignElementData) : list string :=
  (if Qlt_le_dec 0 (data_width data) then [] else ["width"])
  ++ (if Qlt_le_dec 0 (data_height data) then [] else ["height"])
  ++ match data_opacity data with
     | Some given =>
         if Qle_bool 0 given && Qle_bool given 1 then [] else ["opacity"]
     | None => []
     end.

Definition validated (data : DesignElementData) : DesignElement :=
  {| uuid := data_uuid data;
     element_type := data_type data;
     width := data_width data;
     height := data_height data;
     angle := with_default (data_angle data) 0;
     left := with_default (data_left data) 0;
     top := with_default (data_top data) 0;
     opacity := with_default (data_opacity data) 1 |}.

(** The constructor [DesignElement]. *)
Definition DesignElement_new (data : DesignElementData) : res DesignElement :=
  match design_errors data with
  | [] => Ok (validated data)
  | errors => Raise (ValidationError errors)
  end.

(** [TextElement(DesignElement, TextProperty)]: the fields of both, and
    the validators of [TextProperty]. *)
Record TextElement : Type := mkTextElement {
  element : DesignElement;
  properties : TextProperty
}.

(** The constructor [TextElement]: [type] is the literal "textElement". *)
Definition TextElement_new (replace_charrefs : string -> string)
    (data : DesignElementData) (text_data : TextProperty) : res TextElement :=
  match field_errors text_data
        ++ (if String.eqb (data_type data) "textElement" then [] else ["type"])
        ++ design_errors data with
  | [] =>
      res_bind (TextProperty_new replace_charrefs text_data)
               (fun self => Ok {| element := validated data;
                                  properties := self |})
  | errors => Raise (ValidationError errors)
  end.

End Schema.

(** ** renderer.py *)

Module Renderer.

(** The built-in [round] of a float: to the nearest integer, a tie to the
    even one. *)
Definition py_round (x : Q) : Z :=
  let f := Qfloor x in
  match Qcompare (x - inject_Z f) (1 # 2) with
  | Lt => f
  | Gt => (f + 1)%Z
  | Eq => if Z.even f then f else (f + 1)%Z
  end.

(** [max(a, b)] and [min(a, b)]: the first argument unless the second is
    strictly beyond it. *)
Definition py_max (a b : Q) : Q := if Qlt_le_dec a b then b else a.

Definition py_min (a b : Q) : Q := if Qlt_le_dec b a then b else a.

(** [a / b] *)
Definition true_div (a b : Q) : res Q :=
  if Qeq_bool b 0 then Raise ZeroDivisionError else Ok (a / b).

(** [_get_scale_size] in exact arithmetic: every product and quotient is
    the rational number, where binary64 rounds it. *)
Definition _get_scale_size (width height : Q) (max_size : option Z)
  : res ((Q * Q) * (Z * Z)) :=
  res_bind
    match max_size with
    | None => Ok 1
    | Some max_size =>
        res_bind (true_div (inject_Z max_size) (py_max width height))
                 (fun q => Ok (py_min 1 q))
    end
    (fun s =>
  let sx := s in
  let sy := s in
  res_bind (if (py_round (width * sx) <=? 0)%Z then true_div 1 width else Ok sx)
    (fun sx =>
  res_bind (if (py_round (height * sy) <=? 0)%Z then true_div 1 height else Ok sy)
    (fun sy =>
  let size := (py_round (sx * width), py_round (sy * height)) in
  if (0 <? fst size)%Z && (0 <? snd size)%Z
  then Ok ((sx, sy), size)
  else Raise (AssertionError "Failed to get scale")))).


(** The fit scale [min(1.0, max_size / max(width, height))]. *)
Definition fit (width height : Q) (max_size : option Z) : Q :=
  match max_size with
  | None => 1
  | Some m => py_min 1 (inject_Z m / py_max width height)
  end.

(** *** The legacy adapter *)

Definition newline : ascii := "010"%char.

(** [re.sub("\n+", "\n", x)]: [in_run] says that the previous character
    was a newline. *)
Fixpoint collapse_from (in_run : bool) (x : string) : string :=
  match x with
  | EmptyString => EmptyString
  | String c rest =>
      if Ascii.eqb c newline
      then (if in_run then collapse_from true rest
            else String c (collapse_from true rest))
      else String c (collapse_from false rest)
  end.

Definition collapse_newlines (x : string) : string := collapse_from false x.

(** A newline that follows a newline: [previous] says that the character
    before [x] is one. *)
Fixpoint has_run_from (previous : bool) (x : string) : bool :=
  match x with
  | EmptyString => false
  | String c rest =>
      if Ascii.eqb c newline
      then previous || has_run_from true rest
      else has_run_from false rest
  end.

Definition starts_with_newline (x : string) : bool :=
  match x with
  | EmptyString => false
  | String c _ => Ascii.eqb c newline
  end.

Definition two_newlines : string :=
  String newline (String newline EmptyString).

(** [itertools.accumulate] *)
Fixpoint accumulate_from (total : Z) (xs : list Z) : list Z :=
  match xs with
  | [] => []
  | x :: rest => (total + x)%Z :: accumulate_from (total + x)%Z rest
  end.

Definition accumulate (xs : list Z) : list Z := accumulate_from 0 xs.

(** [int(c == "\n")] *)
Definition newline_flag (c : ascii) : Z := if Ascii.eqb c newline then 1%Z else 0%Z.

(** The number of newline characters among [cs]. *)
Fixpoint count_newlines (cs : list ascii) : Z :=
  match cs with
  | [] => 0%Z
  | c :: rest => (newline_flag c + count_newlines rest)%Z
  end.

(** [xs[i]] for an index that is not negative. *)
Definition index {A : Type} (xs : list A) (i : nat) : res A :=
  match nth_error xs i with
  | Some x => Ok x
  | None => Raise IndexError
  end.

(** An outcome that is a value or an [IndexError]. *)
Definition ok_or_index {A : Type} (r : res A) : Prop :=
  (exists a, r = Ok a) \/ r = Raise IndexError.

(** [[f(i) for i in range(length)]] for a body that may raise. *)
Fixpoint comprehension {A : Type} (f : nat -> res A) (indices : list nat)
  : res (list A) :=
  match indices with
  | [] => Ok []
  | i :: rest =>
      res_bind (f i) (fun x =>
      res_bind (comprehension f rest) (fun xs => Ok (x :: xs)))
  end.

(** [range(length)] *)
Definition range (length : Z) : list nat := seq 0 (Z.to_nat length).

(** [x[:1].capitalize() + x[1:]] *)
Definition capitalize_first (x : string) : string :=
  match x with
  | EmptyString => EmptyString
  | String c rest => String (PyStr.to_upper c) rest
  end.

(** The test of [_render_to_surface] that sends element [i] to the text
    renderer and not to the image branch:
    [example["type"][i] == "TextElement" and font_manager and render_text]. *)
Definition renders_text (type_name : string) (font_manager render_text : bool)
  : bool :=
  String.eqb type_name "TextElement" && font_manager && render_text.

Section Adapter.

(** The element colour, a triple (r, g, b), and the opacity of a legacy
    record, and the [rgba(r,g,b,opacity)] string that [str.format] builds
    from the two. *)
Variables Color Opacity : Type.
Variable format_rgba : Color -> Opacity -> string.

(** The fields of a legacy record that the text conversion reads.  The
    geometry ([left], [top], [width], [height], [angle]) and the fields
    that are passed through are left out. *)
Record V4Example : Type := mkV4 {
  v4_length : Z;
  v4_type : list string;
  v4_text : list string;
  v4_color : list Color;
  v4_opacity : list Opacity;
  v4_capitalize : list string
}.

(** A legacy record with an entry for each of its [length] elements in
    the arrays the conversion indexes. *)
Definition well_formed (example : V4Example) : Prop :=
  let n := Z.to_nat (v4_length example) in
  (n <= List.length (v4_type example))%nat
  /\ (n <= List.length (v4_text example))%nat
  /\ (n <= List.length (v4_color example))%nat
  /\ (n <= List.length (v4_opacity example))%nat.

Record V5Example : Type := mkV5 {
  length : Z;
  type : list string;
  text : list string;
  capitalize : list bool;
  font_bold : list (list bool);
  font_italic : list (list bool);
  text_color : list (list string);
  text_line : list (list Z)
}.

Definition convert_to_v5 (example : V4Example) : res V5Example :=
  let length := v4_length example in
  res_bind (comprehension
              (fun i => res_bind (index (v4_type example) i)
                          (fun x => Ok (capitalize_first x)))
              (range length)) (fun type_name =>
  let text := map collapse_newlines (v4_text example) in
  res_bind (comprehension
              (fun i =>
                 res_bind (index (v4_color example) i) (fun color =>
                 res_bind (index (v4_opacity example) i) (fun opacity =>
                 res_bind (index text i) (fun text_i =>
                 Ok (repeat (format_rgba color opacity)
                            (String.length text_i))))))
              (range length)) (fun text_color =>
  res_bind (comprehension
              (fun i =>
                 res_bind (index text i) (fun text_i =>
                 Ok (accumulate (map newline_flag (list_ascii_of_string text_i)))))
              (range length)) (fun text_line =>
  res_bind (comprehension
              (fun i =>
                 res_bind (index (v4_text example) i) (fun x =>
                 Ok (repeat false (String.length x))))
              (range length)) (fun font_bold =>
  res_bind (comprehension
              (fun i =>
                 res_bind (index (v4_text example) i) (fun x =>
                 Ok (repeat false (String.length x))))
              (range length)) (fun font_italic =>
  Ok {| length := v4_length example;
        type := type_name;
        text := text;
        capitalize := map (fun x => String.eqb x "true") (v4_capitalize example);
        font_bold := font_bold;
        font_italic := font_italic;
        text_color := text_color;
        text_line := text_line |}))))).

End Adapter.

Arguments mkV4 {Color Opacity}.
Arguments v4_length {Color Opacity}.
Arguments v4_type {Color Opacity}.
Arguments v4_text {Color Opacity}.
Arguments v4_color {Color Opacity}.
Arguments v4_opacity {Color Opacity}.
Arguments v4_capitalize {Color Opacity}.
Arguments well_formed {Color Opacity}.
Arguments convert_to_v5 {Color Opacity}.

End Renderer.

(** ** renderer.py on binary64 *)

Module Binary64.
Import PrimFloat SpecFloat FloatOps.

(** The conversion of an [int] operand of a float operation: the nearest
    float, a tie to the even one, and [OverflowError] beyond the range. *)
Definition of_int (n : Z) : res float :=
  match binary_normalize prec emax n 0 false with
  | S754_infinity _ => Raise OverflowError
  | nearest => Ok (SF2Prim nearest)
  end.

(** The rational number a finite float stands for. *)
Definition value (sign : bool) (m : positive) (e : Z) : Q :=
  let magnitude :=
    match e with
    | Z0 => inject_Z (Zpos m)
    | Zpos p => inject_Z (Zpos m * 2 ^ Zpos p)
    | Zneg p => Zpos m # 2 ^ p
    end in
  if sign then Qopp magnitude else magnitude.

(** The built-in [round] of a float: the nearest integer of its value, a
    tie to the even one; an infinity and a NaN have none. *)
Definition py_round (x : float) : res Z :=
  match Prim2SF x with
  | S754_zero _ => Ok 0%Z
  | S754_finite sign m e => Ok (Renderer.py_round (value sign m e))
  | S754_infinity _ => Raise OverflowError
  | S754_nan => Raise ValueError
  end.

(** [a / b] on floats: a zero divisor of either sign raises. *)
Definition true_div (a b : float) : res float :=
  if eqb b zero then Raise ZeroDivisionError else Ok (div a b).

(** [max(a, b)] and [min(a, b)]: the first argument unless the second is
    strictly beyond it. *)
Definition py_max (a b : float) : float := if ltb a b then b else a.

Definition py_min (a b : float) : float := if ltb b a then b else a.

Definition _get_scale_size (width height : float) (max_size : option Z)
  : res ((float * float) * (Z * Z)) :=
  res_bind
    match max_size with
    | None => Ok one
    | Some max_size =>
        res_bind (of_int max_size) (fun m =>
        res_bind (true_div m (py_max width height)) (fun q =>
        Ok (py_min one q)))
    end
    (fun s =>
  let sx := s in
  let sy := s in
  res_bind (res_bind (py_round (mul width sx)) (fun rounded =>
            if (rounded <=? 0)%Z then true_div one width else Ok sx))
    (fun sx =>
  res_bind (res_bind (py_round (mul height sy)) (fun rounded =>
            if (rounded <=? 0)%Z then true_div one height else Ok sy))
    (fun sy =>
  res_bind (py_round (mul sx width)) (fun size_0 =>
  res_bind (py_round (mul sy height)) (fun size_1 =>
  if (0 <? size_0)%Z && (0 <? size_1)%Z
  then Ok ((sx, sy), (size_0, size_1))
  else Raise (AssertionError "Failed to get scale")))))).

(** The fit scale [min(1.0, max_size / max(width, height))], and [1.0]
    without a maximal size. *)
Definition fit (width height : float) (max_size : option Z) : res float :=
  match max_size with
  | None => Ok one
  | Some max_size =>
      res_bind (of_int max_size) (fun m =>
      res_bind (true_div m (py_max width height)) (fun q =>
      Ok (py_min one q)))
  end.

(** One axis as the corrected description has it: an axis whose rounded
    dimension [round(s * dim)] is positive has the scale [s] and that
    dimension as its pixel size; an axis whose rounded dimension is 0 or
    negative has the scale [1 / dim] and the pixel size
    [round((1 / dim) * dim)]. *)
Definition axis (dim s scale : float) (pixels : Z) : Prop :=
  exists rounded : Z,
    py_round (mul s dim) = Ok rounded
    /\ ((0 < rounded)%Z /\ scale = s /\ pixels = rounded
        \/ (rounded <= 0)%Z /\ eqb dim zero = false
           /\ scale = div one dim
           /\ py_round (mul (div one dim) dim) = Ok pixels).

End Binary64.

(** * Properties *)

(** ** Strings *)

Module PyStrFacts.
Import PyStr.

Lemma prefix_empty (s : string) : prefix EmptyString s = true.
Proof. now destruct s. Qed.

Lemma prefix_char (c a : ascii) (rest : string) :
  prefix (String c EmptyString) (String a rest) = Ascii.eqb a c.
Proof.
  cbn [prefix]. destruct (ascii_dec c a) as [-> | Hne].
  - now rewrite prefix_empty, Ascii.eqb_refl.
  - symmetry. apply Ascii.eqb_neq. congruence.
Qed.

Lemma contains_char (c : ascii) (s : string) :
  contains (String c EmptyString) s = has_char c s.
Proof.
  induction s as [| a rest IH]; [reflexivity |].
  cbn [contains has_char]. now rewrite prefix_char, IH.
Qed.

(** Replacing a text that does not occur changes nothing. *)
Lemma replace_absent (old new s : string) :
  contains old s = false -> replace old new s = s.
Proof.
  unfold replace. induction s as [| a rest IH]; [reflexivity |].
  cbn [contains replace_from]. intros H.
  apply orb_false_iff in H as [Hprefix Hrest].
  rewrite Hprefix. f_equal. now apply IH.
Qed.

(** Replacing one character by another one removes it. *)
Lemma replace_char_removes (c d : ascii) (s : string) :
  c <> d ->
  has_char c (replace (String c EmptyString) (String d EmptyString) s) = false.
Proof.
  intros Hne. unfold replace. induction s as [| a rest IH]; [reflexivity |].
  cbn [replace_from]. rewrite prefix_char.
  destruct (Ascii.eqb a c) eqn:E; cbn [String.length Nat.sub append has_char].
  - rewrite IH, orb_false_r. apply Ascii.eqb_neq. congruence.
  - now rewrite E, IH.
Qed.

(** Deleting the occurrences of a text adds no character. *)
Lemma delete_keeps_absent (c : ascii) (old s : string) :
  has_char c s = false -> forall skip,
  has_char c (replace_from old EmptyString skip s) = false.
Proof.
  induction s as [| a rest IH]; [reflexivity |].
  cbn [has_char]. intros H skip.
  apply orb_false_iff in H as [Ha Hrest].
  cbn [replace_from]. destruct skip as [| k]; [| now apply IH].
  destruct (prefix old (String a rest)); cbn [append has_char].
  - now apply IH.
  - now rewrite Ha, IH.
Qed.

Lemma case_keeps_underscore (a : ascii) :
  Ascii.eqb a "_" = false ->
  Ascii.eqb (to_lower a) "_" = false /\ Ascii.eqb (to_upper a) "_" = false.
Proof.
  destruct a as [[] [] [] [] [] [] [] []]; vm_compute; intuition congruence.
Qed.

Lemma title_keeps_underscore_absent (s : string) :
  has_char "_" s = false -> forall previous_is_cased,
  has_char "_" (title_from previous_is_cased s) = false.
Proof.
  induction s as [| a rest IH]; [reflexivity |].
  cbn [has_char]. intros H b.
  apply orb_false_iff in H as [Ha Hrest].
  destruct (case_keeps_underscore a Ha) as [Hlow Hup].
  cbn [title_from has_char]. rewrite (IH Hrest), orb_false_r.
  now destruct b.
Qed.

End PyStrFacts.

(** ** Font lookup *)

Module FontsSpec.
Import Fonts.

Arguments normalize_family : simpl never.
Arguments get_font_weight : simpl never.
Arguments get_font_style : simpl never.

Lemma mem_In (x : string) (xs : list string) :
  PyStr.mem x xs = true <-> In x xs.
Proof.
  unfold PyStr.mem. rewrite existsb_exists. split.
  - intros [y [Hy Heq]]. apply String.eqb_eq in Heq. now subst.
  - intros Hin. exists x. split; [assumption | apply String.eqb_refl].
Qed.

Lemma mem_not_In (x : string) (xs : list string) :
  PyStr.mem x xs = false <-> ~ In x xs.
Proof.
  rewrite <- mem_In. destruct (PyStr.mem x xs); split; congruence.
Qed.

Lemma dict_get_In {V : Type} (d : list (string * V)) (key : string) (v : V) :
  dict_get d key = Some v -> In (key, v) d.
Proof.
  induction d as [| [k w] rest IH]; simpl; [discriminate |].
  destruct (String.eqb k key) eqn:E.
  - intros [= ->]. apply String.eqb_eq in E. subst. now left.
  - intros H. right. now apply IH.
Qed.

(** *** Outcomes of the logging computations *)

Lemma snd_bind_ok {A B : Type} (m : M A) (k : A -> M B) (a : A) :
  snd m = Ok a -> snd (bind m k) = snd (k a).
Proof.
  destruct m as [logged [x | e]]; simpl; intros [=]. subst.
  now destruct (k a).
Qed.

Lemma snd_bind_raise {A B : Type} (m : M A) (k : A -> M B) (e : exn) :
  snd m = Raise e -> snd (bind m k) = Raise e.
Proof.
  destruct m as [logged [x | e']]; simpl; intros [=]. now subst.
Qed.

Lemma no_assertion_bind {A B : Type} (m : M A) (k : A -> M B) :
  no_assertion m -> (forall a, no_assertion (k a)) -> no_assertion (bind m k).
Proof.
  intros Hm Hk msg. destruct (snd m) as [a | e] eqn:E.
  - rewrite (snd_bind_ok m k a E). apply Hk.
  - rewrite (snd_bind_raise m k e E). intros [= ->]. now apply (Hm msg).
Qed.

Lemma no_assertion_ret {A : Type} (a : A) : no_assertion (ret a).
Proof. intros msg. discriminate. Qed.

Lemma no_assertion_warning (msg : string) : no_assertion (warning msg).
Proof. intros m. discriminate. Qed.

Lemma no_assertion_fallback_message (family : list Face) :
  no_assertion (fallback_message family).
Proof.
  unfold fallback_message. apply no_assertion_bind.
  - destruct family; intros msg; discriminate.
  - intros name. apply no_assertion_warning.
Qed.

Lemma no_assertion_family_loop (fonts : FontDict) (font_family : string)
    (names : list string) :
  forall i, no_assertion (family_loop fonts font_family i names).
Proof.
  induction names as [| family_name rest IH]; intros i; cbn [family_loop].
  - apply no_assertion_ret.
  - destruct (dict_get fonts (normalize_family family_name)) as [family |].
    + apply no_assertion_bind; [| intros; apply no_assertion_ret].
      destruct (0 <? i)%nat;
        [apply no_assertion_fallback_message | apply no_assertion_ret].
    + apply no_assertion_bind; [apply no_assertion_warning | intros; apply IH].
Qed.

Lemma no_assertion_first_family (fonts : FontDict) (family : list Face) :
  no_assertion (first_family fonts family).
Proof.
  destruct family as [| font rest]; cbn [first_family];
    [| apply no_assertion_ret].
  destruct fonts as [| [name first] others]; [intros msg; discriminate |].
  apply no_assertion_bind;
    [apply no_assertion_fallback_message | intros; apply no_assertion_ret].
Qed.

Lemma no_assertion_select_face (family : list Face) (w s : string) :
  no_assertion (select_face family w s).
Proof.
  unfold select_face. destruct (find (face_matches w s) family).
  - apply no_assertion_ret.
  - destruct family; [intros msg; discriminate |].
    apply no_assertion_bind;
      [apply no_assertion_warning | intros; apply no_assertion_ret].
Qed.

(** [lookup] behind its three assertions. *)
Lemma lookup_past_gate (fonts : FontDict) (font_family font_weight font_style : string) :
  In font_weight FONT_WEIGHTS -> In font_style FONT_STYLES ->
  lookup (Some fonts) font_family font_weight font_style =
    (family <- family_loop fonts font_family 0 [font_family; "Montserrat"] ;;
     family <- first_family fonts family ;;
     font <- select_face family (get_font_weight font_family font_weight)
                         (get_font_style font_family font_style) ;;
     ret (bytes font)).
Proof.
  intros Hw Hs. apply mem_In in Hw. apply mem_In in Hs.
  unfold lookup. now rewrite Hw, Hs.
Qed.

(** C5. A weight outside the nine recognized weights, or a style outside
    the four recognized styles, makes [lookup] fail on its assertion
    before anything is looked up or logged, whatever the family name and
    the dictionary are; a recognized weight with a recognized style raises
    no assertion. *)
Theorem lookup_enum_gate :
  (forall (fonts : FontDict) (font_family font_weight font_style : string),
     ~ In font_weight FONT_WEIGHTS ->
     lookup (Some fonts) font_family font_weight font_style
     = ([], Raise (AssertionError ("Invalid font weight: " ++ font_weight))))
  /\ (forall (fonts : FontDict) (font_family font_weight font_style : string),
     In font_weight FONT_WEIGHTS -> ~ In font_style FONT_STYLES ->
     lookup (Some fonts) font_family font_weight font_style
     = ([], Raise (AssertionError ("Invalid font style: " ++ font_style))))
  /\ (forall (fonts : FontDict) (font_family font_weight font_style : string),
     In font_weight FONT_WEIGHTS -> In font_style FONT_STYLES ->
     forall msg,
       snd (lookup (Some fonts) font_family font_weight font_style)
       <> Raise (AssertionError msg))
  /\ List.length FONT_WEIGHTS = 9%nat /\ NoDup FONT_WEIGHTS
  /\ List.length FONT_STYLES = 4%nat /\ NoDup FONT_STYLES.
Proof.
  repeat split.
  - intros fonts ff fw fs Hw. apply mem_not_In in Hw.
    unfold lookup. now rewrite Hw.
  - intros fonts ff fw fs Hw Hs. apply mem_In in Hw. apply mem_not_In in Hs.
    unfold lookup. now rewrite Hw, Hs.
  - intros fonts ff fw fs Hw Hs. rewrite (lookup_past_gate _ _ _ _ Hw Hs).
    apply no_assertion_bind; [apply no_assertion_family_loop | intros family].
    apply no_assertion_bind; [apply no_assertion_first_family | intros family'].
    apply no_assertion_bind; [apply no_assertion_select_face | intros font].
    apply no_assertion_ret.
  - repeat constructor; simpl; intuition discriminate.
  - repeat constructor; simpl; intuition discriminate.
Qed.

Lemma lookup_enum_gate_witness :
  lookup (Some []) "Acme" "bogus" "regular"
  = ([], Raise (AssertionError "Invalid font weight: bogus")).
Proof.
  apply (proj1 lookup_enum_gate [] "Acme" "bogus" "regular").
  simpl. intuition discriminate.
Defined.

(** *** The fallback chain *)

Lemma normalize_family_Montserrat : normalize_family "Montserrat" = "Montserrat".
Proof. reflexivity. Qed.

(** The family the loop of [lookup] ends with. *)
Lemma family_loop_outcome (fonts : FontDict) (font_family : string) :
  snd (family_loop fonts font_family 0 [font_family; "Montserrat"]) =
    match dict_get fonts (normalize_family font_family) with
    | Some family => Ok family
    | None =>
        match dict_get fonts "Montserrat" with
        | Some [] => Raise IndexError
        | Some family => Ok family
        | None => Ok []
        end
    end.
Proof.
  cbn [family_loop]. rewrite normalize_family_Montserrat.
  destruct (dict_get fonts (normalize_family font_family)) as [family |];
    [reflexivity |].
  destruct (dict_get fonts "Montserrat") as [[| font rest] |]; reflexivity.
Qed.

Lemma first_family_nonempty (fonts : FontDict) (font : Face) (rest : list Face) :
  first_family fonts (font :: rest) = ret (font :: rest).
Proof. reflexivity. Qed.

Lemma first_family_empty (name : string) (font : Face) (rest : list Face)
    (others : FontDict) :
  snd (first_family ((name, font :: rest) :: others) []) = Ok (font :: rest).
Proof. reflexivity. Qed.

Lemma select_face_outcome (font : Face) (rest : list Face) (w s : string) :
  snd (select_face (font :: rest) w s) =
    Ok match find (face_matches w s) (font :: rest) with
       | Some found => found
       | None => font
       end.
Proof.
  unfold select_face. now destruct (find (face_matches w s) (font :: rest)).
Qed.

(** [lookup] on a family that has been resolved to a non-empty list. *)
Lemma lookup_resolved (fonts : FontDict) (font_family font_weight font_style : string)
    (font : Face) (rest : list Face) :
  In font_weight FONT_WEIGHTS -> In font_style FONT_STYLES ->
  snd (family <- family_loop fonts font_family 0 [font_family; "Montserrat"] ;;
       first_family fonts family) = Ok (font :: rest) ->
  snd (lookup (Some fonts) font_family font_weight font_style) =
    Ok (bytes
          match find (face_matches (get_font_weight font_family font_weight)
                                   (get_font_style font_family font_style))
                     (font :: rest) with
          | Some found => found
          | None => font
          end).
Proof.
  intros Hw Hs Hfamily. rewrite (lookup_past_gate _ _ _ _ Hw Hs).
  destruct (snd (family_loop fonts font_family 0 [font_family; "Montserrat"]))
    as [family |] eqn:Hloop.
  - rewrite (snd_bind_ok _ _ _ Hloop) in Hfamily.
    rewrite (snd_bind_ok _ _ _ Hloop).
    rewrite (snd_bind_ok _ _ _ Hfamily).
    now rewrite (snd_bind_ok _ _ _ (select_face_outcome _ _ _ _)).
  - rewrite (snd_bind_raise _ _ _ Hloop) in Hfamily. discriminate.
Qed.

(** C1, the claim as stated fails: a dictionary that is not empty but
    holds a family without faces makes [lookup] raise [IndexError]. *)
Lemma lookup_raises_on_empty_family :
  let fonts : FontDict := [("Montserrat", [])] in
  fonts <> []
  /\ In "regular" FONT_WEIGHTS /\ In "regular" FONT_STYLES
  /\ lookup (Some fonts) "Acme" "regular" "regular"
     = (["Font family not found: Acme"], Raise IndexError).
Proof.
  cbv zeta. split; [discriminate |]. split; [simpl; tauto |].
  split; [simpl; tauto | reflexivity].
Qed.

(** C1, amended.  For a loaded dictionary that is not empty and whose
    families all have at least one face, [lookup] with a recognized weight
    and style returns the bytes of a stored face and does not raise.  The
    family is the one stored under the normalized name; when that key is
    absent, the one stored under "Montserrat"; when that is absent too,
    the first family of the dictionary.  The face is the first one of the
    family with the effective weight and style, and the first face of the
    family when there is none. *)
Theorem lookup_fallback_total :
  forall (fonts : FontDict) (font_family font_weight font_style : string),
    fonts <> [] ->
    (forall name family, In (name, family) fonts -> family <> []) ->
    In font_weight FONT_WEIGHTS -> In font_style FONT_STYLES ->
    exists (name : string) (family : list Face) (font : Face),
      In (name, family) fonts /\ In font family
      /\ snd (lookup (Some fonts) font_family font_weight font_style)
         = Ok (bytes font)
      /\ match dict_get fonts (normalize_family font_family) with
         | Some found => family = found
         | None =>
             match dict_get fonts "Montserrat" with
             | Some found => family = found
             | None => exists others, fonts = (name, family) :: others
             end
         end
      /\ match find (face_matches (get_font_weight font_family font_weight)
                                  (get_font_style font_family font_style))
                    family with
         | Some found => font = found
         | None => exists rest, family = font :: rest
         end.
Proof.
  intros fonts ff fw fs Hfonts Hfaces Hw Hs.
  assert (Hresolve : exists name font rest,
             In (name, font :: rest) fonts
             /\ snd (family <- family_loop fonts ff 0 [ff; "Montserrat"] ;;
                     first_family fonts family) = Ok (font :: rest)
             /\ match dict_get fonts (normalize_family ff) with
                | Some found => font :: rest = found
                | None =>
                    match dict_get fonts "Montserrat" with
                    | Some found => font :: rest = found
                    | None => exists others, fonts = (name, font :: rest) :: others
                    end
                end).
  { pose proof (family_loop_outcome fonts ff) as Hloop.
    destruct (dict_get fonts (normalize_family ff)) as [family |] eqn:Hfirst.
    - pose proof (dict_get_In _ _ _ Hfirst) as Hin.
      destruct family as [| font rest]; [now apply Hfaces in Hin |].
      exists (normalize_family ff), font, rest. split; [assumption |].
      split; [| reflexivity].
      now rewrite (snd_bind_ok _ _ _ Hloop).
    - destruct (dict_get fonts "Montserrat") as [family |] eqn:Hsecond.
      + pose proof (dict_get_In _ _ _ Hsecond) as Hin.
        destruct family as [| font rest]; [now apply Hfaces in Hin |].
        exists "Montserrat", font, rest. split; [assumption |].
        split; [| reflexivity].
        now rewrite (snd_bind_ok _ _ _ Hloop).
      + destruct fonts as [| [name family] others]; [congruence |].
        destruct family as [| font rest];
          [exfalso; now apply (Hfaces name []); [left |] |].
        exists name, font, rest. split; [now left |].
        split; [| now exists others].
        now rewrite (snd_bind_ok _ _ _ Hloop). }
  destruct Hresolve as (name & font & rest & Hin & Hfamily & Hchain).
  pose proof (lookup_resolved fonts ff fw fs font rest Hw Hs Hfamily) as Hlookup.
  destruct (find (face_matches (get_font_weight ff fw) (get_font_style ff fs))
                 (font :: rest)) as [found |] eqn:Hfind.
  - exists name, (font :: rest), found. rewrite Hfind.
    repeat split; try assumption.
    now apply (find_some _ _ Hfind).
  - exists name, (font :: rest), font. rewrite Hfind.
    repeat split; try assumption; [now left | now exists rest].
Qed.

Lemma lookup_fallback_total_witness :
  exists (name : string) (family : list Face) (font : Face),
    In (name, family) [("Acme", [mkFace "Acme" None None [Byte.x01]])]
    /\ In font family
    /\ snd (lookup (Some [("Acme", [mkFace "Acme" None None [Byte.x01]])])
              "Sunday" "black" "italic")
       = Ok (bytes font).
Proof.
  destruct (lookup_fallback_total
              [("Acme", [mkFace "Acme" None None [Byte.x01]])]
              "Sunday" "black" "italic") as (name & family & font & H1 & H2 & H3 & _).
  - discriminate.
  - intros name family [[= <- <-] | []]. discriminate.
  - simpl. tauto.
  - simpl. tauto.
  - now exists name, family, font.
Defined.

(** *** The weight and style a name carries *)

Lemma lookup_found (fonts : FontDict) (font_family font_weight font_style : string)
    (family : list Face) (font : Face) :
  In font_weight FONT_WEIGHTS -> In font_style FONT_STYLES ->
  dict_get fonts (normalize_family font_family) = Some family ->
  find (face_matches (get_font_weight font_family font_weight)
                     (get_font_style font_family font_style)) family
  = Some font ->
  lookup (Some fonts) font_family font_weight font_style = ([], Ok (bytes font)).
Proof.
  intros Hw Hs Hget Hfind. rewrite (lookup_past_gate _ _ _ _ Hw Hs).
  cbn [family_loop]. rewrite Hget.
  destruct family as [| first rest]; [discriminate |].
  cbn [Nat.ltb Nat.leb bind ret app first_family].
  unfold select_face. rewrite Hfind. reflexivity.
Qed.

(** C3, the claim as stated fails: the last whitespace-delimited token of
    a name that ends in a space, or whose last word follows a tab, is a
    weight keyword, and the effective weight is the argument all the
    same. *)
Lemma last_whitespace_token_not_used :
  let tab := String (ascii_of_nat 9) EmptyString in
  last_whitespace_token "Acme Bold " = "bold"
  /\ last_whitespace_token ("Acme" ++ tab ++ "Bold") = "bold"
  /\ In "bold" FONT_WEIGHTS
  /\ get_font_weight "Acme Bold " "regular" = "regular"
  /\ get_font_weight ("Acme" ++ tab ++ "Bold") "regular" = "regular"
  /\ "regular" <> "bold".
Proof.
  cbv zeta. repeat split; try reflexivity; [simpl; tauto | discriminate].
Qed.

(** C3, amended.  The key is the text after the last space character of
    the original name, lowercased, underscores read as spaces (it is empty
    when the name ends in a space, and no other whitespace delimits it).
    When the key is a weight keyword the effective weight is the key,
    whatever the weight argument is, and otherwise it is the argument; the
    same holds, independently, for the style.  [lookup] matches the faces
    of the family against the effective weight and style, and "Acme Bold"
    has the effective weight "bold". *)
Theorem suffix_override :
  forall (font_family font_weight font_style : string),
    let key :=
      last (PyStr.split " " (PyStr.lower (PyStr.replace "_" " " font_family))) ""
    in
    (In key FONT_WEIGHTS -> get_font_weight font_family font_weight = key)
    /\ (~ In key FONT_WEIGHTS ->
        get_font_weight font_family font_weight = font_weight)
    /\ (In key FONT_STYLES -> get_font_style font_family font_style = key)
    /\ (~ In key FONT_STYLES ->
        get_font_style font_family font_style = font_style)
    /\ (In key FONT_WEIGHTS ->
        forall (fonts : option FontDict) (other : string),
          In font_weight FONT_WEIGHTS -> In other FONT_WEIGHTS ->
          lookup fonts font_family font_weight font_style
          = lookup fonts font_family other font_style)
    /\ (In key FONT_STYLES ->
        forall (fonts : option FontDict) (other : string),
          In font_style FONT_STYLES -> In other FONT_STYLES ->
          lookup fonts font_family font_weight font_style
          = lookup fonts font_family font_weight other)
    /\ (forall (fonts : FontDict) (family : list Face) (font : Face),
          In font_weight FONT_WEIGHTS -> In font_style FONT_STYLES ->
          dict_get fonts (normalize_family font_family) = Some family ->
          find (face_matches (get_font_weight font_family font_weight)
                             (get_font_style font_family font_style)) family
          = Some font ->
          lookup (Some fonts) font_family font_weight font_style
          = ([], Ok (bytes font)))
    /\ get_font_weight "Acme Bold" "regular" = "bold".
Proof.
  intros ff fw fs key.
  assert (Hweight : In key FONT_WEIGHTS -> forall w, get_font_weight ff w = key).
  { intros Hin w. apply mem_In in Hin. unfold get_font_weight, suffix_key.
    fold key. now rewrite Hin. }
  assert (Hstyle : In key FONT_STYLES -> forall s, get_font_style ff s = key).
  { intros Hin s. apply mem_In in Hin. unfold get_font_style, suffix_key.
    fold key. now rewrite Hin. }
  split; [intros Hin; now apply Hweight |].
  split.
  { intros Hout. apply mem_not_In in Hout. unfold get_font_weight, suffix_key.
    fold key. now rewrite Hout. }
  split; [intros Hin; now apply Hstyle |].
  split.
  { intros Hout. apply mem_not_In in Hout. unfold get_font_style, suffix_key.
    fold key. now rewrite Hout. }
  split.
  { intros Hin [fonts |] other Hw Ho; [| reflexivity].
    destruct (in_dec string_dec fs FONT_STYLES) as [Hs | Hs].
    - rewrite (lookup_past_gate _ _ _ _ Hw Hs), (lookup_past_gate _ _ _ _ Ho Hs).
      now rewrite (Hweight Hin fw), (Hweight Hin other).
    - apply mem_In in Hw, Ho. apply mem_not_In in Hs.
      unfold lookup. now rewrite Hw, Ho, Hs. }
  split.
  { intros Hin [fonts |] other Hs Ho; [| reflexivity].
    destruct (in_dec string_dec fw FONT_WEIGHTS) as [Hw | Hw].
    - rewrite (lookup_past_gate _ _ _ _ Hw Hs), (lookup_past_gate _ _ _ _ Hw Ho).
      now rewrite (Hstyle Hin fs), (Hstyle Hin other).
    - apply mem_not_In in Hw. unfold lookup. now rewrite Hw. }
  split; [| reflexivity].
  intros fonts family font. apply lookup_found.
Qed.

Lemma suffix_override_witness :
  get_font_weight "Open_Sans_Light" "regular" = "light"
  /\ get_font_style "Open_Sans_Light" "italic" = "italic".
Proof.
  destruct (suffix_override "Open_Sans_Light" "regular" "italic")
    as (Hw & _ & _ & Hs & _).
  split.
  - apply Hw. vm_compute. tauto.
  - apply Hs. vm_compute. intuition discriminate.
Defined.

(** *** Normalization *)

(** No canonical name of [FONT_MAP] is a key of it, and none has an
    underscore. *)
Lemma FONT_MAP_values :
  forall key canonical,
    dict_get FONT_MAP key = Some canonical ->
    dict_get FONT_MAP canonical = None
    /\ PyStr.has_char "_" canonical = false.
Proof.
  intros key canonical H. apply dict_get_In in H.
  assert (Hall : forallb
            (fun entry =>
               match dict_get FONT_MAP (snd entry) with
               | None => negb (PyStr.has_char "_" (snd entry))
               | Some _ => false
               end) FONT_MAP = true) by reflexivity.
  rewrite forallb_forall in Hall. specialize (Hall _ H). cbn [snd] in Hall.
  destruct (dict_get FONT_MAP canonical); [discriminate |].
  split; [reflexivity | now apply negb_true_iff].
Qed.

Lemma normalize_family_stripped (name : string) :
  normalize_family name =
    match dict_get FONT_MAP (stripped name) with
    | Some canonical => canonical
    | None => stripped name
    end.
Proof. reflexivity. Qed.

Lemma stripped_no_underscore (name : string) :
  PyStr.has_char "_" (stripped name) = false.
Proof.
  unfold stripped, PyStr.replace.
  repeat apply PyStrFacts.delete_keeps_absent.
  apply PyStrFacts.title_keeps_underscore_absent.
  now apply PyStrFacts.replace_char_removes.
Qed.

Lemma normalize_family_no_underscore (name : string) :
  PyStr.has_char "_" (normalize_family name) = false.
Proof.
  rewrite normalize_family_stripped.
  destruct (dict_get FONT_MAP (stripped name)) as [canonical |] eqn:E.
  - now apply (FONT_MAP_values _ _ E).
  - apply stripped_no_underscore.
Qed.

Lemma normalize_family_not_a_key (name : string) :
  dict_get FONT_MAP (normalize_family name) = None.
Proof.
  rewrite normalize_family_stripped.
  destruct (dict_get FONT_MAP (stripped name)) as [canonical |] eqn:E.
  - now apply (FONT_MAP_values _ _ E).
  - assumption.
Qed.

(** C4, the claim as stated fails: deleting " Bold" from "A Bo Boldld"
    leaves "A Bold", which a second pass shortens to "A". *)
Lemma normalize_family_not_idempotent :
  normalize_family "A Bo Boldld" = "A Bold"
  /\ normalize_family (normalize_family "A Bo Boldld") = "A"
  /\ normalize_family (normalize_family "A Bo Boldld")
     <> normalize_family "A Bo Boldld".
Proof.
  split; [reflexivity |]. split; [reflexivity | discriminate].
Qed.

(** C4, amended.  A second normalization changes nothing whenever the
    first one returns a name that is in title case and has none of the
    five suffixes " Bold", " Regular", " Light", " Italic", " Medium"
    left in it. *)
Theorem normalize_family_idempotent :
  forall x : string,
    PyStr.title (normalize_family x) = normalize_family x ->
    (forall suffix, In suffix SUFFIXES ->
                    PyStr.contains suffix (normalize_family x) = false) ->
    normalize_family (normalize_family x) = normalize_family x.
Proof.
  intros x Htitle Hsuffix.
  pose proof (normalize_family_no_underscore x) as Hunderscore.
  pose proof (normalize_family_not_a_key x) as Hkey.
  set (y := normalize_family x) in *.
  assert (Hstripped : stripped y = y).
  { unfold stripped.
    rewrite (PyStrFacts.replace_absent "_" " " y)
      by now rewrite PyStrFacts.contains_char.
    rewrite Htitle.
    rewrite (PyStrFacts.replace_absent " Bold" "" y)
      by (apply Hsuffix; simpl; tauto).
    rewrite (PyStrFacts.replace_absent " Regular" "" y)
      by (apply Hsuffix; simpl; tauto).
    rewrite (PyStrFacts.replace_absent " Light" "" y)
      by (apply Hsuffix; simpl; tauto).
    rewrite (PyStrFacts.replace_absent " Italic" "" y)
      by (apply Hsuffix; simpl; tauto).
    apply PyStrFacts.replace_absent. apply Hsuffix. simpl. tauto. }
  rewrite (normalize_family_stripped y), Hstripped. now rewrite Hkey.
Qed.

Lemma normalize_family_idempotent_witness :
  normalize_family (normalize_family "open_sans_bold")
  = normalize_family "open_sans_bold".
Proof.
  apply normalize_family_idempotent.
  - reflexivity.
  - intros suffix Hin. simpl in Hin.
    repeat (destruct Hin as [<- | Hin]; [reflexivity |]). destruct Hin.
Defined.

(** *** Loading *)

(** C8, the claim as stated fails: a blob that decodes to an empty
    mapping is loaded without an error, and the empty mapping is
    installed. *)
Lemma load_accepts_empty_mapping :
  load None (Decoded (Some [])) = (Some [], Ok tt)
  /\ init (Decoded (Some [])) = (Some [], Ok tt).
Proof. split; reflexivity. Qed.

(** C8, amended.  [load] fails when the blob is absent, is corrupt, or
    decodes to [None]; a blob that decodes to a mapping, the empty one
    included, is loaded.  A failed [load] installs no mapping: the
    attribute keeps the value it had when the blob is absent or corrupt,
    and is [None] when the blob decoded to [None], so that a manager under
    construction stays without fonts. *)
Theorem load_failure :
  forall (fonts : option FontDict) (source : blob),
    (source = Absent \/ source = Corrupt \/ source = Decoded None ->
     (exists e, snd (load fonts source) = Raise e)
     /\ (fst (load fonts source) = fonts \/ fst (load fonts source) = None)
     /\ (source <> Decoded None -> fst (load fonts source) = fonts)
     /\ (source = Decoded None -> fst (load fonts source) = None)
     /\ fst (init source) = None)
    /\ (forall mapping : FontDict,
          source = Decoded (Some mapping) ->
          load fonts source = (Some mapping, Ok tt)).
Proof.
  intros fonts source. split.
  - intros [-> | [-> | ->]]; cbn [load init fst snd].
    + split; [now exists FileNotFoundError |]. split; [now left |].
      split; [reflexivity |]. split; [discriminate | reflexivity].
    + split; [now exists UnpicklingError |]. split; [now left |].
      split; [reflexivity |]. split; [discriminate | reflexivity].
    + split; [now eexists |]. split; [now right |]. split; [congruence |].
      split; reflexivity.
  - now intros mapping ->.
Qed.

Lemma load_failure_witness :
  (exists e, snd (load (Some [("Acme", [])]) Corrupt) = Raise e)
  /\ fst (load (Some [("Acme", [])]) Corrupt) = Some [("Acme", [])]
  /\ fst (init Corrupt) = None.
Proof.
  destruct (proj1 (load_failure (Some [("Acme", [])]) Corrupt))
    as (Hfail & _ & Hkeep & _ & Hinit).
  - right. left. reflexivity.
  - split; [exact Hfail |]. split; [| exact Hinit].
    apply Hkeep. discriminate.
Defined.

End FontsSpec.

(** ** Text properties *)

Module SchemaSpec.
Import Schema.

Local Open Scope Q_scope.

Lemma check_linemap_text (self : TextProperty) :
  text (check_linemap self) = text self.
Proof. unfold check_linemap. now destruct (lineMap self). Qed.

Lemma html_unescape_plain (replace_charrefs : string -> string) (s : string) :
  PyStr.contains "&" s = false -> html_unescape replace_charrefs s = s.
Proof. intros H. unfold html_unescape. now rewrite H. Qed.

Lemma field_errors_valid (data : TextProperty) :
  0 < fontSize data -> 0 < lineHeight data ->
  In (textAlign data) TEXT_ALIGN ->
  match wordBreak data with
  | Some w => In w WORD_BREAK
  | None => True
  end ->
  field_errors data = [].
Proof.
  intros Hsize Hheight Halign Hbreak. unfold field_errors.
  destruct (Qlt_le_dec 0 (fontSize data)) as [_ | Hle];
    [| now apply Qle_not_lt in Hle].
  destruct (Qlt_le_dec 0 (lineHeight data)) as [_ | Hle];
    [| now apply Qle_not_lt in Hle].
  apply FontsSpec.mem_In in Halign. rewrite Halign.
  destruct (wordBreak data) as [w |]; [| reflexivity].
  apply FontsSpec.mem_In in Hbreak. now rewrite Hbreak.
Qed.

(** C7.  The construction of a [TextProperty] from valid fields succeeds,
    and the object it returns has a [lineMap].  When none was given, the
    [lineMap] is the single item with [startIndex] 0, [endIndex]
    [len(text) - 1] for the stored text, and "line" as value and type;
    for the text "abc" that item spans the indices 0 to 2. *)
Theorem linemap_default :
  forall (replace_charrefs : string -> string) (data : TextProperty),
    0 < fontSize data -> 0 < lineHeight data ->
    In (textAlign data) TEXT_ALIGN ->
    match wordBreak data with
    | Some w => In w WORD_BREAK
    | None => True
    end ->
    exists self : TextProperty,
      TextProperty_new replace_charrefs data = Ok self
      /\ text self = unescape replace_charrefs (text data)
      /\ lineMap self <> None
      /\ (lineMap data = None ->
          lineMap self
          = Some [mkTextMapItem 0 (len (text self) - 1)
                    (Some (VStr "line")) (Some "line")])
      /\ (lineMap data = None -> text data = "abc" ->
          text self = "abc"
          /\ lineMap self
             = Some [mkTextMapItem 0 2 (Some (VStr "line")) (Some "line")]).
Proof.
  intros replace_charrefs data Hsize Hheight Halign Hbreak.
  unfold TextProperty_new.
  rewrite (field_errors_valid data Hsize Hheight Halign Hbreak).
  eexists. split; [reflexivity |].
  rewrite check_linemap_text. cbn [text].
  split; [reflexivity |]. unfold check_linemap. cbn [lineMap text].
  destruct (lineMap data) as [given |].
  - cbn [lineMap]. repeat split; congruence.
  - cbn [lineMap text]. split; [discriminate |]. split; [reflexivity |].
    intros _ ->. split; reflexivity.
Qed.

Lemma linemap_default_witness :
  exists self : TextProperty,
    TextProperty_new (fun s => s)
      (mkTextProperty "abc" 12 "Montserrat" (6 # 5) "center" false 0 []
         None None None None None None None None None None None)
    = Ok self
    /\ lineMap self
       = Some [mkTextMapItem 0 2 (Some (VStr "line")) (Some "line")].
Proof.
  destruct (linemap_default (fun s => s)
              (mkTextProperty "abc" 12 "Montserrat" (6 # 5) "center" false 0 []
                 None None None None None None None None None None None))
    as (self & Hnew & _ & _ & _ & Habc).
  - reflexivity.
  - reflexivity.
  - simpl. tauto.
  - exact I.
  - exists self. split; [exact Hnew |]. now apply Habc.
Defined.

End SchemaSpec.

(** ** Canvas sizing *)

Module SizingSpec.
Import Renderer.

Local Open Scope Q_scope.







End SizingSpec.

(** ** The legacy adapter *)

Module AdapterSpec.
Import Renderer.

Lemma index_in_range {A : Type} (xs : list A) (i : nat) :
  (i < List.length xs)%nat ->
  exists x, index xs i = Ok x /\ nth_error xs i = Some x.
Proof.
  intros H. unfold index. destruct (nth_error xs i) as [x |] eqn:E.
  - now exists x.
  - apply nth_error_None in E. lia.
Qed.

(** A comprehension over a range whose body raises nowhere. *)
Lemma comprehension_seq {A : Type} (f : nat -> res A) (n : nat) :
  forall start,
    (forall i, (start <= i < start + n)%nat -> exists a, f i = Ok a) ->
    exists l,
      comprehension f (seq start n) = Ok l
      /\ forall j, (j < n)%nat ->
           exists a, nth_error l j = Some a /\ f (start + j)%nat = Ok a.
Proof.
  induction n as [| n IH]; intros start Hbody.
  - exists []. split; [reflexivity |]. intros j Hj. lia.
  - destruct (Hbody start) as [a Ha]; [lia |].
    destruct (IH (S start)) as (l & Hl & Hnth).
    { intros i Hi. apply Hbody. lia. }
    exists (a :: l). split.
    + cbn [seq comprehension]. rewrite Ha. cbn [res_bind]. rewrite Hl.
      reflexivity.
    + intros [| j] Hj.
      * exists a. now rewrite Nat.add_0_r.
      * destruct (Hnth j) as (b & Hb & Hfb); [lia |].
        exists b. split; [assumption |].
        now rewrite Nat.add_succ_r.
Qed.

Lemma comprehension_range {A : Type} (f : nat -> res A) (length : Z) :
  (forall i, (i < Z.to_nat length)%nat -> exists a, f i = Ok a) ->
  exists l,
    comprehension f (range length) = Ok l
    /\ forall i, (i < Z.to_nat length)%nat ->
         exists a, nth_error l i = Some a /\ f i = Ok a.
Proof.
  intros Hbody. unfold range.
  apply (comprehension_seq f (Z.to_nat length) 0).
  intros i Hi. apply Hbody. lia.
Qed.

(** *** Newlines *)

Lemma length_list_ascii (s : string) :
  List.length (list_ascii_of_string s) = String.length s.
Proof. induction s as [| c rest IH]; cbn; congruence. Qed.

Lemma accumulate_from_length (xs : list Z) :
  forall total, List.length (accumulate_from total xs) = List.length xs.
Proof. induction xs as [| x rest IH]; intros total; cbn; congruence. Qed.

(** The entry at a position is the number of newlines up to and
    including it. *)
Lemma accumulate_from_nth (cs : list ascii) :
  forall (total : Z) (p : nat),
    (p < List.length cs)%nat ->
    nth p (accumulate_from total (map newline_flag cs)) 0%Z
    = (total + count_newlines (firstn (S p) cs))%Z.
Proof.
  induction cs as [| c rest IH]; intros total p Hp; cbn [List.length] in Hp;
    [lia |].
  cbn [map accumulate_from]. destruct p as [| p].
  - cbn [nth firstn count_newlines]. lia.
  - cbn [nth]. rewrite IH by lia.
    change (firstn (S (S p)) (c :: rest)) with (c :: firstn (S p) rest).
    cbn [count_newlines]. lia.
Qed.

Lemma collapse_from_length (x : string) :
  forall in_run, (String.length (collapse_from in_run x) <= String.length x)%nat.
Proof.
  induction x as [| c rest IH]; intros in_run; cbn [collapse_from String.length];
    [lia |].
  destruct (Ascii.eqb c newline); [destruct in_run |]; cbn [String.length];
    try specialize (IH true) as Ht; try specialize (IH false) as Hf; lia.
Qed.

Lemma prefix_two_newlines (c : ascii) (rest : string) :
  prefix two_newlines (String c rest)
  = Ascii.eqb c newline && starts_with_newline rest.
Proof.
  unfold two_newlines. cbn [prefix].
  destruct (ascii_dec newline c) as [<- | Hne].
  - rewrite Ascii.eqb_refl. destruct rest as [| d rest']; [reflexivity |].
    now rewrite PyStrFacts.prefix_char.
  - assert (E : Ascii.eqb c newline = false)
      by (apply Ascii.eqb_neq; congruence).
    now rewrite E.
Qed.

Lemma has_run_from_contains (x : string) :
  forall previous,
    has_run_from previous x
    = (previous && starts_with_newline x) || PyStr.contains two_newlines x.
Proof.
  induction x as [| c rest IH]; intros previous.
  - cbn. now rewrite andb_false_r.
  - cbn [has_run_from PyStr.contains starts_with_newline].
    rewrite prefix_two_newlines.
    destruct (Ascii.eqb c newline).
    + rewrite (IH true). cbn [andb]. now rewrite andb_true_r.
    + rewrite (IH false). cbn [andb]. now rewrite andb_false_r.
Qed.

Lemma collapse_from_shorter (x : string) :
  forall in_run,
    has_run_from in_run x = true ->
    (String.length (collapse_from in_run x) < String.length x)%nat.
Proof.
  induction x as [| c rest IH]; intros in_run; cbn [has_run_from];
    [discriminate |].
  cbn [collapse_from String.length].
  destruct (Ascii.eqb c newline).
  - destruct in_run; cbn [orb String.length].
    + intros _. pose proof (collapse_from_length rest true). lia.
    + intros H. specialize (IH true H). lia.
  - cbn [String.length]. intros H. specialize (IH false H). lia.
Qed.

Lemma collapse_newlines_shorter (x : string) :
  PyStr.contains two_newlines x = true ->
  (String.length (collapse_newlines x) < String.length x)%nat.
Proof.
  intros H. apply collapse_from_shorter.
  now rewrite has_run_from_contains, H.
Qed.

(** *** The conversion *)

Section Conversion.

Variables Color Opacity : Type.
Variable format_rgba : Color -> Opacity -> string.

(** The conversion of a well-formed record returns, and these are the
    arrays of the element at a position [i]. *)
Lemma convert_to_v5_element (example : V4Example Color Opacity) :
  well_formed example ->
  exists v : V5Example,
    convert_to_v5 format_rgba example = Ok v
    /\ text v = map collapse_newlines (v4_text example)
    /\ forall (i : nat) (x : string),
         (i < Z.to_nat (v4_length example))%nat ->
         nth_error (v4_text example) i = Some x ->
         nth_error (text v) i = Some (collapse_newlines x)
         /\ nth_error (text_line v) i
            = Some (accumulate
                      (map newline_flag
                           (list_ascii_of_string (collapse_newlines x))))
         /\ nth_error (font_bold v) i = Some (repeat false (String.length x))
         /\ nth_error (font_italic v) i = Some (repeat false (String.length x))
         /\ exists color opacity,
              nth_error (text_color v) i
              = Some (repeat (format_rgba color opacity)
                             (String.length (collapse_newlines x))).
Proof.
  intros (Htype & Htext & Hcolor & Hopacity).
  set (n := Z.to_nat (v4_length example)) in *.
  set (collapsed := map collapse_newlines (v4_text example)).
  assert (Hcollapsed : forall i x,
             nth_error (v4_text example) i = Some x ->
             index collapsed i = Ok (collapse_newlines x)).
  { intros i x Hx. unfold index, collapsed.
    now rewrite nth_error_map, Hx. }
  assert (Hsome : forall i, (i < n)%nat ->
             exists x, nth_error (v4_text example) i = Some x
                       /\ index (v4_text example) i = Ok x).
  { intros i Hi. destruct (index_in_range (v4_text example) i) as (x & H1 & H2);
      [lia | now exists x]. }
  unfold convert_to_v5.
  destruct (comprehension_range
              (fun i => res_bind (index (v4_type example) i)
                          (fun x => Ok (capitalize_first x)))
              (v4_length example)) as (type_name & -> & _).
  { intros i Hi. destruct (index_in_range (v4_type example) i) as (x & -> & _);
      [fold n in Hi; lia | now eexists]. }
  cbn [res_bind]. fold collapsed.
  destruct (comprehension_range
              (fun i =>
                 res_bind (index (v4_color example) i) (fun color =>
                 res_bind (index (v4_opacity example) i) (fun opacity =>
                 res_bind (index collapsed i) (fun text_i =>
                 Ok (repeat (format_rgba color opacity)
                            (String.length text_i))))))
              (v4_length example)) as (colors & -> & Hcolors).
  { intros i Hi. fold n in Hi.
    destruct (index_in_range (v4_color example) i) as (c & -> & _); [lia |].
    destruct (index_in_range (v4_opacity example) i) as (o & -> & _); [lia |].
    destruct (Hsome i Hi) as (x & Hx & _).
    cbn [res_bind]. rewrite (Hcollapsed i x Hx). now eexists. }
  cbn [res_bind].
  destruct (comprehension_range
              (fun i =>
                 res_bind (index collapsed i) (fun text_i =>
                 Ok (accumulate (map newline_flag (list_ascii_of_string text_i)))))
              (v4_length example)) as (lines & -> & Hlines).
  { intros i Hi. destruct (Hsome i Hi) as (x & Hx & _).
    rewrite (Hcollapsed i x Hx). now eexists. }
  cbn [res_bind].
  destruct (comprehension_range
              (fun i =>
                 res_bind (index (v4_text example) i) (fun x =>
                 Ok (repeat false (String.length x))))
              (v4_length example)) as (falses & -> & Hfalses).
  { intros i Hi. destruct (Hsome i Hi) as (x & _ & ->). now eexists. }
  cbn [res_bind].
  eexists. split; [reflexivity |].
  cbn [text text_line font_bold font_italic text_color].
  split; [reflexivity |].
  intros i x Hi Hx. fold n in Hi.
  assert (Hindex : index (v4_text example) i = Ok x)
    by (unfold index; now rewrite Hx).
  split; [unfold collapsed; now rewrite nth_error_map, Hx |].
  split.
  { destruct (Hlines i Hi) as (line & -> & Hline).
    rewrite (Hcollapsed i x Hx) in Hline. cbn [res_bind] in Hline. congruence. }
  assert (Hbold : nth_error falses i = Some (repeat false (String.length x))).
  { destruct (Hfalses i Hi) as (bold & -> & Hbold).
    rewrite Hindex in Hbold. cbn [res_bind] in Hbold. congruence. }
  split; [exact Hbold |]. split; [exact Hbold |].
  destruct (Hcolors i Hi) as (colors_i & -> & Hcolors_i).
  destruct (index_in_range (v4_color example) i) as (c & Hc & _); [lia |].
  destruct (index_in_range (v4_opacity example) i) as (o & Ho & _); [lia |].
  rewrite Hc, Ho in Hcolors_i. cbn [res_bind] in Hcolors_i.
  rewrite (Hcollapsed i x Hx) in Hcolors_i. cbn [res_bind] in Hcolors_i.
  exists c, o. congruence.
Qed.

(** C2, amended.  For every element of a well-formed legacy record the
    conversion returns a [text_line] array with one entry for each
    character of the collapsed text, the newline characters included, and
    the entry at a position is the number of newline characters up to and
    including that position.  For the text "ab\ncd", which has five
    characters, the array is [0,0,1,1,1]. *)
Theorem text_line_running_count :
  forall (example : V4Example Color Opacity) (i : nat) (x : string),
    well_formed example ->
    (i < Z.to_nat (v4_length example))%nat ->
    nth_error (v4_text example) i = Some x ->
    exists (v : V5Example) (t : string) (line : list Z),
      convert_to_v5 format_rgba example = Ok v
      /\ t = collapse_newlines x
      /\ nth_error (text v) i = Some t
      /\ nth_error (text_line v) i = Some line
      /\ List.length line = String.length t
      /\ (forall p, (p < String.length t)%nat ->
            nth p line 0%Z
            = count_newlines (firstn (S p) (list_ascii_of_string t)))
      /\ (x = ("ab" ++ String newline "cd")%string -> line = [0; 0; 1; 1; 1]%Z).
Proof.
  intros example i x Hwf Hi Hx.
  destruct (convert_to_v5_element example Hwf) as (v & Hv & _ & Helement).
  destruct (Helement i x Hi Hx) as (Htext & Hline & _).
  exists v, (collapse_newlines x),
    (accumulate (map newline_flag (list_ascii_of_string (collapse_newlines x)))).
  repeat split; try assumption.
  - unfold accumulate.
    now rewrite accumulate_from_length, length_map, length_list_ascii.
  - intros p Hp. unfold accumulate. rewrite accumulate_from_nth.
    + lia.
    + now rewrite length_list_ascii.
  - now intros ->.
Qed.

(** C10.  For every element of a well-formed legacy record, [font_bold]
    and [font_italic] are arrays of [False] as long as the text before the
    newlines are collapsed, while [text_color] and [text_line] are as
    long as the collapsed text; when the original text has two newlines
    in a row, [font_bold] and [font_italic] are longer than the converted
    text and the two other arrays. *)
Theorem font_bold_length :
  forall (example : V4Example Color Opacity) (i : nat) (x : string),
    well_formed example ->
    (i < Z.to_nat (v4_length example))%nat ->
    nth_error (v4_text example) i = Some x ->
    exists (v : V5Example) (t : string) (bold italic : list bool)
           (color : list string) (line : list Z),
      convert_to_v5 format_rgba example = Ok v
      /\ t = collapse_newlines x
      /\ nth_error (text v) i = Some t
      /\ nth_error (font_bold v) i = Some bold
      /\ nth_error (font_italic v) i = Some italic
      /\ nth_error (text_color v) i = Some color
      /\ nth_error (text_line v) i = Some line
      /\ bold = repeat false (String.length x)
      /\ italic = repeat false (String.length x)
      /\ List.length color = String.length t
      /\ List.length line = String.length t
      /\ (PyStr.contains two_newlines x = true ->
          (String.length t < List.length bold)%nat
          /\ (String.length t < List.length italic)%nat
          /\ (List.length color < List.length bold)%nat
          /\ (List.length line < List.length italic)%nat).
Proof.
  intros example i x Hwf Hi Hx.
  destruct (convert_to_v5_element example Hwf) as (v & Hv & _ & Helement).
  destruct (Helement i x Hi Hx)
    as (Htext & Hline & Hbold & Hitalic & color & opacity & Hcolor).
  exists v, (collapse_newlines x),
    (repeat false (String.length x)), (repeat false (String.length x)),
    (repeat (format_rgba color opacity) (String.length (collapse_newlines x))),
    (accumulate (map newline_flag (list_ascii_of_string (collapse_newlines x)))).
  assert (Hlen : List.length
                   (accumulate
                      (map newline_flag
                           (list_ascii_of_string (collapse_newlines x))))
                 = String.length (collapse_newlines x)).
  { unfold accumulate.
    now rewrite accumulate_from_length, length_map, length_list_ascii. }
  repeat (split; [first [assumption | reflexivity | apply repeat_length] |]).
  intros Hrun. apply collapse_newlines_shorter in Hrun.
  rewrite Hlen, !repeat_length. lia.
Qed.

End Conversion.

(** C2, the claim as stated fails: the text "ab\ncd" has five characters,
    the newline being one of them, and its [text_line] array is
    [0,0,1,1,1], not [0,0,1,1]. *)
Lemma text_line_ab_cd :
  let x := ("ab" ++ String newline "cd")%string in
  exists v : V5Example,
    convert_to_v5 (fun (_ : list Z) (_ : Q) => "rgba(0,0,0,1.0)")
      (mkV4 1 ["textElement"] [x] [[0; 0; 0]%Z] [1%Q] ["false"])
    = Ok v
    /\ text v = [x]
    /\ text_line v = [[0; 0; 1; 1; 1]%Z]
    /\ text_line v <> [[0; 0; 1; 1]%Z].
Proof.
  cbv zeta. eexists. split; [reflexivity |]. cbn [text text_line].
  split; [reflexivity |]. split; [reflexivity | discriminate].
Qed.

Lemma text_line_running_count_witness :
  exists (v : V5Example) (line : list Z),
    convert_to_v5 (fun (_ : list Z) (_ : Q) => "rgba(0,0,0,1.0)")
      (mkV4 1 ["textElement"] [("ab" ++ String newline "cd")%string]
            [[0; 0; 0]%Z] [1%Q] ["false"])
    = Ok v
    /\ nth_error (text_line v) 0 = Some line
    /\ line = [0; 0; 1; 1; 1]%Z.
Proof.
  destruct (text_line_running_count (list Z) Q
              (fun _ _ => "rgba(0,0,0,1.0)")
              (mkV4 1 ["textElement"] [("ab" ++ String newline "cd")%string]
                    [[0; 0; 0]%Z] [1%Q] ["false"])
              0%nat ("ab" ++ String newline "cd")%string)
    as (v & t & line & Hv & _ & _ & Hline & _ & _ & Hexample).
  - unfold well_formed. cbn. lia.
  - cbn. lia.
  - reflexivity.
  - exists v, line. split; [exact Hv |]. split; [exact Hline |].
    now apply Hexample.
Defined.

Lemma font_bold_length_witness :
  let x := ("a" ++ String newline (String newline "b"))%string in
  exists (v : V5Example) (bold : list bool) (line : list Z),
    convert_to_v5 (fun (_ : list Z) (_ : Q) => "rgba(0,0,0,1.0)")
      (mkV4 1 ["textElement"] [x] [[0; 0; 0]%Z] [1%Q] ["false"])
    = Ok v
    /\ nth_error (font_bold v) 0 = Some bold
    /\ nth_error (text_line v) 0 = Some line
    /\ (List.length line < List.length bold)%nat.
Proof.
  cbv zeta.
  destruct (font_bold_length (list Z) Q
              (fun _ _ => "rgba(0,0,0,1.0)")
              (mkV4 1 ["textElement"]
                    [("a" ++ String newline (String newline "b"))%string]
                    [[0; 0; 0]%Z] [1%Q] ["false"])
              0%nat ("a" ++ String newline (String newline "b"))%string)
    as (v & t & bold & italic & color & line & Hv & _ & _ & Hbold & Hitalic
        & _ & Hline & -> & -> & _ & Hlen & Hrun).
  - unfold well_formed. cbn. lia.
  - cbn. lia.
  - reflexivity.
  - exists v, (repeat false
                 (String.length ("a" ++ String newline (String newline "b"))%string)),
      line.
    split; [exact Hv |]. split; [exact Hbold |]. split; [exact Hline |].
    destruct Hrun as (H1 & _); [reflexivity |]. rewrite Hlen. exact H1.
Defined.

End AdapterSpec.

(** ** Font lookup: names, logs and edge cases *)

Module FontsExtra.
Import Fonts.

Lemma snd_bind_ext {A B : Type} (m m' : M A) (k k' : A -> M B) :
  snd m = snd m' -> (forall a, snd (k a) = snd (k' a)) ->
  snd (bind m k) = snd (bind m' k').
Proof.
  intros Hm Hk. destruct (snd m) as [a | e] eqn:E.
  - rewrite (FontsSpec.snd_bind_ok m k a E).
    rewrite (FontsSpec.snd_bind_ok m' k' a) by congruence. apply Hk.
  - rewrite (FontsSpec.snd_bind_raise m k e E).
    now rewrite (FontsSpec.snd_bind_raise m' k' e) by congruence.
Qed.

(** The outcome of [lookup] depends on the name through its normalized
    form and the effective weight and style only. *)
Lemma lookup_outcome_congruence (fonts : option FontDict) (a b w s : string) :
  normalize_family a = normalize_family b ->
  get_font_weight a w = get_font_weight b w ->
  get_font_style a s = get_font_style b s ->
  snd (lookup fonts a w s) = snd (lookup fonts b w s).
Proof.
  intros Hnorm Hweight Hstyle. unfold lookup.
  destruct fonts as [fonts |]; [| reflexivity].
  destruct (PyStr.mem w FONT_WEIGHTS); [| reflexivity].
  destruct (PyStr.mem s FONT_STYLES); [| reflexivity].
  cbn [negb]. apply snd_bind_ext.
  - rewrite !FontsSpec.family_loop_outcome. now rewrite Hnorm.
  - intros family. apply snd_bind_ext; [reflexivity |]. intros family'.
    now rewrite Hweight, Hstyle.
Qed.

(** X1.  Two names with the same normalized form and the same effective
    weight and style give the same outcome of [lookup] (the same bytes or
    the same exception), for every dictionary. *)
Theorem lookup_same_key :
  forall (fonts : option FontDict) (a b font_weight font_style : string),
    normalize_family a = normalize_family b ->
    get_font_weight a font_weight = get_font_weight b font_weight ->
    get_font_style a font_style = get_font_style b font_style ->
    snd (lookup fonts a font_weight font_style)
    = snd (lookup fonts b font_weight font_style).
Proof.
  intros fonts a b w s Hnorm Hweight Hstyle.
  now apply lookup_outcome_congruence.
Qed.

Lemma lookup_same_key_witness :
  snd (lookup (Some [("Montserrat", [mkFace "Montserrat" None None [Byte.x07]])])
         "Sunday" "regular" "regular")
  = snd (lookup (Some [("Montserrat", [mkFace "Montserrat" None None [Byte.x07]])])
         "different_summer" "regular" "regular").
Proof.
  apply lookup_same_key; reflexivity.
Defined.

(** *** Case and underscores *)

Lemma lower_char_facts (c : ascii) :
  PyStr.to_lower (PyStr.to_lower c) = PyStr.to_lower c
  /\ PyStr.to_upper (PyStr.to_lower c) = PyStr.to_upper c
  /\ PyStr.is_cased (PyStr.to_lower c) = PyStr.is_cased c
  /\ Ascii.eqb (PyStr.to_lower c) "_" = Ascii.eqb c "_".
Proof.
  destruct c as [[] [] [] [] [] [] [] []]; vm_compute; repeat split.
Qed.

Lemma upper_char_facts (c : ascii) :
  PyStr.to_upper (PyStr.to_upper c) = PyStr.to_upper c
  /\ PyStr.to_lower (PyStr.to_upper c) = PyStr.to_lower c
  /\ PyStr.is_cased (PyStr.to_upper c) = PyStr.is_cased c.
Proof.
  destruct c as [[] [] [] [] [] [] [] []]; vm_compute; repeat split.
Qed.

Lemma lower_lower (s : string) : PyStr.lower (PyStr.lower s) = PyStr.lower s.
Proof.
  induction s as [| c rest IH]; [reflexivity |].
  cbn [PyStr.lower]. now rewrite IH, (proj1 (lower_char_facts c)).
Qed.

Lemma title_from_lower (s : string) :
  forall previous_is_cased,
    PyStr.title_from previous_is_cased (PyStr.lower s)
    = PyStr.title_from previous_is_cased s.
Proof.
  induction s as [| c rest IH]; intros b; [reflexivity |].
  cbn [PyStr.lower PyStr.title_from].
  destruct (lower_char_facts c) as (Hll & Hul & Hcased & _).
  rewrite Hcased, IH. now destruct b; rewrite ?Hll, ?Hul.
Qed.

Lemma replace_underscore_cons (c : ascii) (rest : string) :
  PyStr.replace "_" " " (String c rest)
  = String (if Ascii.eqb c "_" then " "%char else c)
           (PyStr.replace "_" " " rest).
Proof.
  unfold PyStr.replace. cbn [PyStr.replace_from].
  rewrite PyStrFacts.prefix_char. now destruct (Ascii.eqb c "_").
Qed.

Lemma replace_underscore_lower (s : string) :
  PyStr.replace "_" " " (PyStr.lower s)
  = PyStr.lower (PyStr.replace "_" " " s).
Proof.
  induction s as [| c rest IH]; [reflexivity |].
  cbn [PyStr.lower]. rewrite !replace_underscore_cons, IH.
  rewrite (proj2 (proj2 (proj2 (lower_char_facts c)))).
  destruct (Ascii.eqb c "_") eqn:E; [| reflexivity].
  apply Ascii.eqb_eq in E. now subst.
Qed.

Lemma replace_underscore_twice (s : string) :
  PyStr.replace "_" " " (PyStr.replace "_" " " s) = PyStr.replace "_" " " s.
Proof.
  apply PyStrFacts.replace_absent. rewrite PyStrFacts.contains_char.
  now apply PyStrFacts.replace_char_removes.
Qed.

Lemma normalize_family_lower (x : string) :
  normalize_family (PyStr.lower x) = normalize_family x.
Proof.
  unfold normalize_family, PyStr.title.
  now rewrite replace_underscore_lower, title_from_lower.
Qed.

Lemma suffix_key_lower (x : string) :
  suffix_key (PyStr.lower x) = suffix_key x.
Proof.
  unfold suffix_key. now rewrite replace_underscore_lower, lower_lower.
Qed.

Lemma normalize_family_spaces (x : string) :
  normalize_family (PyStr.replace "_" " " x) = normalize_family x.
Proof. unfold normalize_family. now rewrite replace_underscore_twice. Qed.

Lemma suffix_key_spaces (x : string) :
  suffix_key (PyStr.replace "_" " " x) = suffix_key x.
Proof. unfold suffix_key. now rewrite replace_underscore_twice. Qed.

(** X2.  For a family name of ASCII characters, [lookup] does not see
    the case of the name, nor whether its words are joined by underscores
    or by spaces: the normalized name, the effective weight, the effective
    style and the outcome are the same for the name, for the name in
    lowercase and for the name with its underscores replaced by spaces. *)
Theorem lookup_ignores_case_and_underscores :
  forall (fonts : option FontDict) (x font_weight font_style : string),
    PyStr.is_ascii x = true ->
    normalize_family (PyStr.lower x) = normalize_family x
    /\ normalize_family (PyStr.replace "_" " " x) = normalize_family x
    /\ get_font_weight (PyStr.lower x) font_weight
       = get_font_weight x font_weight
    /\ get_font_weight (PyStr.replace "_" " " x) font_weight
       = get_font_weight x font_weight
    /\ get_font_style (PyStr.lower x) font_style
       = get_font_style x font_style
    /\ get_font_style (PyStr.replace "_" " " x) font_style
       = get_font_style x font_style
    /\ snd (lookup fonts (PyStr.lower x) font_weight font_style)
       = snd (lookup fonts x font_weight font_style)
    /\ snd (lookup fonts (PyStr.replace "_" " " x) font_weight font_style)
       = snd (lookup fonts x font_weight font_style).
Proof.
  intros fonts x w s _.
  split; [apply normalize_family_lower |].
  split; [apply normalize_family_spaces |].
  split; [unfold get_font_weight; now rewrite suffix_key_lower |].
  split; [unfold get_font_weight; now rewrite suffix_key_spaces |].
  split; [unfold get_font_style; now rewrite suffix_key_lower |].
  split; [unfold get_font_style; now rewrite suffix_key_spaces |].
  split; apply lookup_outcome_congruence;
    unfold get_font_weight, get_font_style;
    rewrite ?suffix_key_lower, ?suffix_key_spaces;
    auto using normalize_family_lower, normalize_family_spaces.
Qed.

Lemma lookup_ignores_case_and_underscores_witness :
  normalize_family (PyStr.lower "OPEN_Sans_Light") = "Open Sans"
  /\ get_font_weight (PyStr.replace "_" " " "OPEN_Sans_Light") "regular"
     = get_font_weight "OPEN_Sans_Light" "regular"
  /\ snd (lookup (Some [("Open Sans",
                         [mkFace "Open Sans" (Some "light") None [Byte.x2a]])])
            (PyStr.lower "OPEN_Sans_Light") "regular" "regular")
     = snd (lookup (Some [("Open Sans",
                           [mkFace "Open Sans" (Some "light") None [Byte.x2a]])])
              "OPEN_Sans_Light" "regular" "regular").
Proof.
  destruct (lookup_ignores_case_and_underscores
              (Some [("Open Sans",
                      [mkFace "Open Sans" (Some "light") None [Byte.x2a]])])
              "OPEN_Sans_Light" "regular" "regular" eq_refl)
    as (Hnormal & _ & _ & Hweight & _ & _ & Hlookup & _).
  split; [rewrite Hnormal; reflexivity |].
  split; [exact Hweight | exact Hlookup].
Defined.

(** *** Warnings *)

Lemma bind_silent {A B : Type} (m : M A) (k : A -> M B) (r : res B) :
  bind m k = ([], r) ->
  (exists a, m = ([], Ok a) /\ k a = ([], r))
  \/ (exists e, m = ([], Raise e) /\ r = Raise e).
Proof.
  destruct m as [logged [a | e]]; cbn [bind].
  - destruct (k a) as [later r'] eqn:E. intros [= Hlog ->].
    apply app_eq_nil in Hlog as [-> ->]. left. now exists a.
  - intros [= -> <-]. right. now exists e.
Qed.

(** X3.  With a recognized weight and style, [lookup] returns bytes and
    logs nothing exactly when the normalized name is a key of the
    dictionary and its family has a face with the effective weight and
    style, whose bytes are returned: every fallback leaves a warning. *)
Theorem lookup_silent_iff_exact :
  forall (fonts : FontDict) (font_family font_weight font_style : string)
         (data : list Byte.byte),
    In font_weight FONT_WEIGHTS -> In font_style FONT_STYLES ->
    (lookup (Some fonts) font_family font_weight font_style = ([], Ok data)
     <-> exists (family : list Face) (font : Face),
           dict_get fonts (normalize_family font_family) = Some family
           /\ find (face_matches (get_font_weight font_family font_weight)
                                 (get_font_style font_family font_style))
                   family = Some font
           /\ data = bytes font).
Proof.
  intros fonts ff fw fs data Hw Hs. split.
  - rewrite (FontsSpec.lookup_past_gate _ _ _ _ Hw Hs). intros Hrun.
    apply bind_silent in Hrun as [(family & Hloop & Hrun) | (e & _ & [=])].
    apply bind_silent in Hrun as [(family' & Hfirst & Hrun) | (e & _ & [=])].
    apply bind_silent in Hrun as [(font & Hselect & Hret) | (e & _ & [=])].
    unfold ret in Hret. injection Hret as <-.
    cbn [family_loop] in Hloop.
    destruct (dict_get fonts (normalize_family ff)) as [found |] eqn:Hget.
    2: { apply bind_silent in Hloop as [(u & Hwarn & _) | (e & Hwarn & _)];
         discriminate Hwarn. }
    cbn in Hloop. injection Hloop as <-.
    destruct found as [| first rest].
    { cbn [first_family] in Hfirst.
      destruct fonts as [| [name family] others]; [discriminate |].
      apply bind_silent in Hfirst as [(u & Hmsg & _) | (e & _ & [=])].
      apply bind_silent in Hmsg as [(n & _ & Hwarn) | (e & _ & [=])].
      discriminate Hwarn. }
    cbn in Hfirst. injection Hfirst as <-.
    unfold select_face in Hselect.
    destruct (find (face_matches (get_font_weight ff fw) (get_font_style ff fs))
                   (first :: rest)) as [hit |] eqn:Hfind.
    2: { apply bind_silent in Hselect as [(u & Hwarn & _) | (e & Hwarn & _)];
         discriminate Hwarn. }
    unfold ret in Hselect. injection Hselect as <-.
    now exists (first :: rest), hit.
  - intros (family & font & Hget & Hfind & ->).
    now apply (FontsSpec.lookup_found fonts ff fw fs family font).
Qed.

Lemma lookup_silent_iff_exact_witness :
  lookup (Some [("Open Sans", [mkFace "Open Sans" (Some "light") None [Byte.x2a]])])
    "open_sans_light" "regular" "regular"
  = ([], Ok [Byte.x2a]).
Proof.
  apply lookup_silent_iff_exact.
  - simpl. tauto.
  - simpl. tauto.
  - eexists. eexists. split; [reflexivity |]. split; reflexivity.
Defined.

(** X4.  A blob that decodes to an empty mapping is loaded, and every
    [lookup] on the manager it gives, with a recognized weight and style,
    raises [StopIteration] after the two warnings of the family loop. *)
Theorem lookup_on_empty_mapping :
  forall (font_family font_weight font_style : string),
    In font_weight FONT_WEIGHTS -> In font_style FONT_STYLES ->
    snd (init (Decoded (Some []))) = Ok tt
    /\ lookup (fst (init (Decoded (Some [])))) font_family font_weight font_style
       = (["Font family not found: " ++ font_family;
           "Font family not found: " ++ font_family]%string,
          Raise StopIteration).
Proof.
  intros ff fw fs Hw Hs. split; [reflexivity |].
  cbn [init load fst]. now rewrite (FontsSpec.lookup_past_gate _ _ _ _ Hw Hs).
Qed.

Lemma lookup_on_empty_mapping_witness :
  lookup (fst (init (Decoded (Some [])))) "Montserrat" "regular" "regular"
  = (["Font family not found: Montserrat";
      "Font family not found: Montserrat"]%string,
     Raise StopIteration).
Proof.
  apply (lookup_on_empty_mapping "Montserrat" "regular" "regular");
    simpl; tauto.
Defined.

(** X5.  A family that is stored with an empty list of faces is treated
    as missing, but the "Montserrat" step is skipped: the face comes from
    the first family of the dictionary, whether "Montserrat" is stored or
    not. *)
Theorem lookup_empty_family_skips_default :
  forall (fonts others : FontDict) (name font_family font_weight font_style : string)
         (first : Face) (rest : list Face),
    In font_weight FONT_WEIGHTS -> In font_style FONT_STYLES ->
    fonts = (name, first :: rest) :: others ->
    dict_get fonts (normalize_family font_family) = Some [] ->
    snd (lookup (Some fonts) font_family font_weight font_style)
    = Ok (bytes
            match find (face_matches (get_font_weight font_family font_weight)
                                     (get_font_style font_family font_style))
                       (first :: rest) with
            | Some found => found
            | None => first
            end).
Proof.
  intros fonts others name ff fw fs first rest Hw Hs -> Hget.
  apply FontsSpec.lookup_resolved; try assumption.
  pose proof (FontsSpec.family_loop_outcome
                ((name, first :: rest) :: others) ff) as Hloop.
  rewrite Hget in Hloop. now rewrite (FontsSpec.snd_bind_ok _ _ _ Hloop).
Qed.

Lemma lookup_empty_family_skips_default_witness :
  snd (lookup (Some [("Acme", [mkFace "Acme" None None [Byte.x01]]);
                     ("Lato", []);
                     ("Montserrat", [mkFace "Montserrat" None None [Byte.x02]])])
         "Lato" "regular" "regular")
  = Ok [Byte.x01].
Proof.
  apply (lookup_empty_family_skips_default _
           [("Lato", []);
            ("Montserrat", [mkFace "Montserrat" None None [Byte.x02]])]
           "Acme" "Lato" "regular" "regular"
           (mkFace "Acme" None None [Byte.x01]) []);
    try reflexivity; simpl; tauto.
Defined.

(** X6.  The effective weight and style are always recognized ones when
    the arguments are: the name can only replace an argument by a keyword
    of the same enumeration. *)
Theorem effective_weight_style_recognized :
  forall (name font_weight font_style : string),
    In font_weight FONT_WEIGHTS -> In font_style FONT_STYLES ->
    In (get_font_weight name font_weight) FONT_WEIGHTS
    /\ In (get_font_style name font_style) FONT_STYLES.
Proof.
  intros name fw fs Hw Hs. unfold get_font_weight, get_font_style. split.
  - destruct (PyStr.mem (suffix_key name) FONT_WEIGHTS) eqn:E;
      [now apply FontsSpec.mem_In | assumption].
  - destruct (PyStr.mem (suffix_key name) FONT_STYLES) eqn:E;
      [now apply FontsSpec.mem_In | assumption].
Qed.

Lemma effective_weight_style_recognized_witness :
  In (get_font_weight "Lato Black" "thin") FONT_WEIGHTS
  /\ In (get_font_style "Lato Black" "italic") FONT_STYLES.
Proof.
  apply effective_weight_style_recognized; simpl; tauto.
Defined.

(** *** Normalized names *)

Lemma title_from_twice (s : string) :
  forall previous_is_cased,
    PyStr.title_from previous_is_cased (PyStr.title_from previous_is_cased s)
    = PyStr.title_from previous_is_cased s.
Proof.
  induction s as [| c rest IH]; intros b; [reflexivity |].
  cbn [PyStr.title_from].
  destruct (lower_char_facts c) as (Hll & _ & Hlc & _).
  destruct (upper_char_facts c) as (Huu & _ & Huc).
  destruct b; rewrite ?Hll, ?Huu, ?Hlc, ?Huc, IH; reflexivity.
Qed.

(** A name that [normalize_family] leaves alone. *)
Lemma normalize_family_fixed (y : string) :
  PyStr.has_char "_" y = false ->
  PyStr.title y = y ->
  (forall suffix, In suffix SUFFIXES -> PyStr.contains suffix y = false) ->
  dict_get FONT_MAP y = None ->
  normalize_family y = y.
Proof.
  intros Hunderscore Htitle Hsuffix Hkey.
  assert (Hstripped : stripped y = y).
  { unfold stripped.
    rewrite (PyStrFacts.replace_absent "_" " " y)
      by now rewrite PyStrFacts.contains_char.
    rewrite Htitle.
    rewrite (PyStrFacts.replace_absent " Bold" "" y)
      by (apply Hsuffix; simpl; tauto).
    rewrite (PyStrFacts.replace_absent " Regular" "" y)
      by (apply Hsuffix; simpl; tauto).
    rewrite (PyStrFacts.replace_absent " Light" "" y)
      by (apply Hsuffix; simpl; tauto).
    rewrite (PyStrFacts.replace_absent " Italic" "" y)
      by (apply Hsuffix; simpl; tauto).
    apply PyStrFacts.replace_absent. apply Hsuffix. simpl. tauto. }
  rewrite (FontsSpec.normalize_family_stripped y), Hstripped. now rewrite Hkey.
Qed.

(** The canonical names of [FONT_MAP] are in title case and carry no
    suffix. *)
Lemma FONT_MAP_canonical_clean :
  forall key canonical,
    dict_get FONT_MAP key = Some canonical ->
    PyStr.title canonical = canonical
    /\ forall suffix, In suffix SUFFIXES ->
                      PyStr.contains suffix canonical = false.
Proof.
  intros key canonical H. apply FontsSpec.dict_get_In in H.
  assert (Hall : forallb
            (fun entry =>
               String.eqb (PyStr.title (snd entry)) (snd entry)
               && forallb (fun suffix => negb (PyStr.contains suffix (snd entry)))
                          SUFFIXES) FONT_MAP = true) by reflexivity.
  rewrite forallb_forall in Hall. specialize (Hall _ H). cbn [snd] in Hall.
  apply andb_true_iff in Hall as [Htitle Hsuffix].
  split; [now apply String.eqb_eq |].
  intros suffix Hin. rewrite forallb_forall in Hsuffix.
  now apply negb_true_iff, Hsuffix.
Qed.

(** X7.  The alias table has no dead entry and no chain: no key occurs
    twice, normalizing a key gives its canonical name, and normalizing a
    canonical name gives it back. *)
Theorem FONT_MAP_aliases_resolve :
  NoDup (map fst FONT_MAP)
  /\ forall key canonical,
       In (key, canonical) FONT_MAP ->
       normalize_family key = canonical
       /\ normalize_family canonical = canonical.
Proof.
  split.
  - repeat constructor; simpl; intuition discriminate.
  - intros key canonical H.
    assert (Hall : forallb
              (fun entry =>
                 String.eqb (normalize_family (fst entry)) (snd entry)
                 && String.eqb (normalize_family (snd entry)) (snd entry))
              FONT_MAP = true) by reflexivity.
    rewrite forallb_forall in Hall. specialize (Hall _ H).
    cbn [fst snd] in Hall. apply andb_true_iff in Hall as [H1 H2].
    split; now apply String.eqb_eq.
Qed.

(** X8.  Whatever the name is, its normalized form has no underscore and
    is not a key of the alias table. *)
Theorem normalize_family_canonical :
  forall name : string,
    PyStr.has_char "_" (normalize_family name) = false
    /\ dict_get FONT_MAP (normalize_family name) = None.
Proof.
  intros name. split.
  - apply FontsSpec.normalize_family_no_underscore.
  - apply FontsSpec.normalize_family_not_a_key.
Qed.

(** X9.  Normalization is idempotent on every name of ASCII characters
    that, once its underscores are spaces and it is in title case,
    contains none of the five suffixes; an alias of the table is such a
    name. *)
Theorem normalize_family_idempotent_without_suffix :
  forall x : string,
    PyStr.is_ascii x = true ->
    (forall suffix, In suffix SUFFIXES ->
       PyStr.contains suffix (PyStr.title (PyStr.replace "_" " " x)) = false) ->
    normalize_family (normalize_family x) = normalize_family x.
Proof.
  intros x _ Hsuffix.
  set (t := PyStr.title (PyStr.replace "_" " " x)) in *.
  assert (Hstripped : stripped x = t).
  { unfold stripped. fold t.
    rewrite (PyStrFacts.replace_absent " Bold" "" t)
      by (apply Hsuffix; simpl; tauto).
    rewrite (PyStrFacts.replace_absent " Regular" "" t)
      by (apply Hsuffix; simpl; tauto).
    rewrite (PyStrFacts.replace_absent " Light" "" t)
      by (apply Hsuffix; simpl; tauto).
    rewrite (PyStrFacts.replace_absent " Italic" "" t)
      by (apply Hsuffix; simpl; tauto).
    apply PyStrFacts.replace_absent. apply Hsuffix. simpl. tauto. }
  apply normalize_family_fixed.
  - apply FontsSpec.normalize_family_no_underscore.
  - rewrite (FontsSpec.normalize_family_stripped x), Hstripped.
    destruct (dict_get FONT_MAP t) as [canonical |] eqn:E.
    + now apply (FONT_MAP_canonical_clean t canonical E).
    + apply title_from_twice.
  - rewrite (FontsSpec.normalize_family_stripped x), Hstripped.
    destruct (dict_get FONT_MAP t) as [canonical |] eqn:E.
    + now apply (FONT_MAP_canonical_clean t canonical E).
    + assumption.
  - apply FontsSpec.normalize_family_not_a_key.
Qed.

Lemma normalize_family_idempotent_without_suffix_witness :
  normalize_family (normalize_family "medieval_sharp")
  = normalize_family "medieval_sharp".
Proof.
  apply normalize_family_idempotent_without_suffix; [reflexivity |].
  intros suffix Hin. simpl in Hin.
  repeat (destruct Hin as [<- | Hin]; [reflexivity |]). destruct Hin.
Defined.

(** *** Names that end in a keyword *)

Lemma lower_app (a b : string) :
  PyStr.lower (a ++ b) = (PyStr.lower a ++ PyStr.lower b)%string.
Proof. induction a as [| c rest IH]; cbn; congruence. Qed.

Lemma replace_underscore_app (a b : string) :
  PyStr.replace "_" " " (a ++ b)
  = (PyStr.replace "_" " " a ++ PyStr.replace "_" " " b)%string.
Proof.
  induction a as [| c rest IH]; [reflexivity |].
  change (String c rest ++ b)%string with (String c (rest ++ b)%string).
  rewrite !replace_underscore_cons, IH. reflexivity.
Qed.

Lemma has_space_lower (s : string) :
  PyStr.has_char " " (PyStr.lower s) = PyStr.has_char " " s.
Proof.
  induction s as [| c rest IH]; [reflexivity |].
  cbn [PyStr.lower PyStr.has_char]. rewrite IH. f_equal.
  destruct c as [[] [] [] [] [] [] [] []]; reflexivity.
Qed.

Lemma split_from_not_empty (sep : ascii) (s : string) :
  forall field, PyStr.split_from sep field s <> [].
Proof.
  induction s as [| c rest IH]; intros field; cbn [PyStr.split_from];
    [discriminate |].
  destruct (Ascii.eqb c sep); [discriminate | apply IH].
Qed.

Lemma split_from_one_field (sep : ascii) (s : string) :
  PyStr.has_char sep s = false ->
  forall field, PyStr.split_from sep field s = [(field ++ s)%string].
Proof.
  induction s as [| c rest IH]; intros Hsep field.
  - cbn. f_equal. induction field; cbn; congruence.
  - cbn [PyStr.has_char] in Hsep. apply orb_false_iff in Hsep as [Hc Hrest].
    cbn [PyStr.split_from]. rewrite Hc, (IH Hrest). f_equal.
    induction field; cbn; congruence.
Qed.

(** The last field of a text is what follows its last separator. *)
Lemma last_split_app (sep : ascii) (a b : string) :
  PyStr.has_char sep b = false ->
  forall field,
    last (PyStr.split_from sep field (a ++ String sep b)) EmptyString = b.
Proof.
  intros Hb. induction a as [| c rest IH]; intros field.
  - cbn [append PyStr.split_from]. rewrite Ascii.eqb_refl.
    now rewrite (split_from_one_field sep b Hb).
  - change (String c rest ++ String sep b)%string
      with (String c (rest ++ String sep b)%string).
    cbn [PyStr.split_from]. destruct (Ascii.eqb c sep); [| apply IH].
    specialize (IH EmptyString).
    pose proof (split_from_not_empty sep (rest ++ String sep b) EmptyString).
    destruct (PyStr.split_from sep EmptyString (rest ++ String sep b));
      [congruence | exact IH].
Qed.

Lemma suffix_key_joined (family keyword : string) (joiner : ascii) :
  joiner = " "%char \/ joiner = "_"%char ->
  PyStr.has_char " " keyword = false ->
  PyStr.has_char "_" keyword = false ->
  suffix_key (family ++ String joiner keyword) = PyStr.lower keyword.
Proof.
  intros Hjoiner Hspace Hunderscore. unfold suffix_key, PyStr.split.
  rewrite replace_underscore_app, replace_underscore_cons.
  rewrite (PyStrFacts.replace_absent "_" " " keyword)
    by now rewrite PyStrFacts.contains_char.
  assert (Hj : (if Ascii.eqb joiner "_" then " "%char else joiner) = " "%char)
    by (destruct Hjoiner as [-> | ->]; reflexivity).
  rewrite Hj, lower_app. cbn [PyStr.lower].
  change (PyStr.to_lower " ") with " "%char.
  apply last_split_app. now rewrite has_space_lower.
Qed.

(** X24.  A name made of a family, a space or an underscore, and a word
    without spaces or underscores has that word, in lowercase, as its
    key: when the word is a weight keyword in any case it is the
    effective weight whatever the argument is, and when it is a style
    keyword it is the effective style. *)
Theorem keyword_after_family :
  forall (family keyword : string) (joiner : ascii),
    joiner = " "%char \/ joiner = "_"%char ->
    PyStr.has_char " " keyword = false ->
    PyStr.has_char "_" keyword = false ->
    (In (PyStr.lower keyword) FONT_WEIGHTS ->
     forall font_weight,
       get_font_weight (family ++ String joiner keyword) font_weight
       = PyStr.lower keyword)
    /\ (In (PyStr.lower keyword) FONT_STYLES ->
        forall font_style,
          get_font_style (family ++ String joiner keyword) font_style
          = PyStr.lower keyword)
    /\ (~ In (PyStr.lower keyword) FONT_WEIGHTS ->
        forall font_weight,
          get_font_weight (family ++ String joiner keyword) font_weight
          = font_weight).
Proof.
  intros family keyword joiner Hjoiner Hspace Hunderscore.
  pose proof (suffix_key_joined family keyword joiner Hjoiner Hspace Hunderscore)
    as Hkey.
  unfold get_font_weight, get_font_style. rewrite Hkey.
  split; [| split].
  - intros Hin w. apply FontsSpec.mem_In in Hin. now rewrite Hin.
  - intros Hin s. apply FontsSpec.mem_In in Hin. now rewrite Hin.
  - intros Hout w. apply FontsSpec.mem_not_In in Hout. now rewrite Hout.
Qed.

Lemma keyword_after_family_witness :
  get_font_weight ("Open_Sans" ++ String "_" "ExtraBold") "regular"
  = "extrabold".
Proof.
  assert (Hjoiner : "_"%char = " "%char \/ "_"%char = "_"%char) by now right.
  destruct (keyword_after_family "Open_Sans" "ExtraBold" "_"%char Hjoiner
              eq_refl eq_refl) as (Hweight & _).
  apply Hweight. vm_compute. tauto.
Defined.

(** *** Failures *)

(** The face [lookup] takes from a family that is not empty. *)
Lemma picked_face_stored (first : Face) (rest : list Face) (w s : string) :
  In match find (face_matches w s) (first :: rest) with
     | Some found => found
     | None => first
     end (first :: rest).
Proof.
  destruct (find (face_matches w s) (first :: rest)) as [found |] eqn:E.
  - now apply (find_some _ _ E).
  - now left.
Qed.

(** The outcome of [lookup] behind its assertions, by cases on the two
    keys and on the head of the dictionary. *)
Lemma lookup_outcome (fonts : FontDict) (ff fw fs : string) :
  In fw FONT_WEIGHTS -> In fs FONT_STYLES ->
  let pick family :=
    match find (face_matches (get_font_weight ff fw) (get_font_style ff fs))
               family with
    | Some found => Some found
    | None => hd_error family
    end in
  snd (lookup (Some fonts) ff fw fs) =
    match
      match dict_get fonts (normalize_family ff) with
      | Some family => Ok family
      | None =>
          match dict_get fonts "Montserrat" with
          | Some [] => Raise IndexError
          | Some family => Ok family
          | None => Ok []
          end
      end
    with
    | Raise e => Raise e
    | Ok [] =>
        match fonts with
        | [] => Raise StopIteration
        | (_, family) :: _ =>
            match pick family with
            | Some font => Ok (bytes font)
            | None => Raise IndexError
            end
        end
    | Ok family =>
        match pick family with
        | Some font => Ok (bytes font)
        | None => Raise IndexError
        end
    end.
Proof.
  intros Hw Hs pick. rewrite (FontsSpec.lookup_past_gate _ _ _ _ Hw Hs).
  pose proof (FontsSpec.family_loop_outcome fonts ff) as Hloop.
  assert (Hselect : forall family,
             snd (font <- select_face family (get_font_weight ff fw)
                                      (get_font_style ff fs) ;;
                  ret (bytes font))
             = match pick family with
               | Some font => Ok (bytes font)
               | None => Raise IndexError
               end).
  { intros family. unfold select_face, pick.
    destruct (find (face_matches (get_font_weight ff fw) (get_font_style ff fs))
                   family); [reflexivity |].
    now destruct family. }
  destruct (match dict_get fonts (normalize_family ff) with
            | Some family => Ok family
            | None => _
            end) as [family | e] eqn:E.
  - rewrite (FontsSpec.snd_bind_ok _ _ _ Hloop).
    destruct family as [| first rest].
    + destruct fonts as [| [name family] others]; [reflexivity |].
      destruct family as [| first rest]; [reflexivity |].
      rewrite (FontsSpec.snd_bind_ok _ _ _
                 (FontsSpec.first_family_empty name first rest others)).
      apply Hselect.
    + rewrite (FontsSpec.snd_bind_ok
                 (first_family fonts (first :: rest)) _ (first :: rest) eq_refl).
      apply Hselect.
  - now rewrite (FontsSpec.snd_bind_raise _ _ _ Hloop).
Qed.

(** X22.  With a recognized weight and style, [lookup] on a loaded
    dictionary raises [StopIteration] exactly when the dictionary is
    empty, and [IndexError] exactly when it runs into a family without
    faces: "Montserrat" when the name is not a key, or the first family of
    the dictionary when the name has no faces or when neither the name nor
    "Montserrat" is a key.  It raises nothing else. *)
Theorem lookup_failures :
  forall (fonts : FontDict) (font_family font_weight font_style : string),
    In font_weight FONT_WEIGHTS -> In font_style FONT_STYLES ->
    let named := dict_get fonts (normalize_family font_family) in
    let default := dict_get fonts "Montserrat" in
    let outcome := snd (lookup (Some fonts) font_family font_weight font_style) in
    (outcome = Raise StopIteration <-> fonts = [])
    /\ (outcome = Raise IndexError
        <-> (named = None /\ default = Some [])
            \/ ((named = Some [] \/ (named = None /\ default = None))
                /\ exists name others, fonts = (name, []) :: others))
    /\ (forall e, outcome = Raise e -> e = StopIteration \/ e = IndexError).
Proof.
  intros fonts ff fw fs Hw Hs named default outcome.
  subst outcome. rewrite (lookup_outcome fonts ff fw fs Hw Hs). cbv zeta.
  subst named default.
  assert (Hpick : forall first rest,
             exists font,
               match find (face_matches (get_font_weight ff fw)
                                        (get_font_style ff fs))
                          (first :: rest) with
               | Some found => Some found
               | None => hd_error (first :: rest)
               end = Some font).
  { intros first rest.
    destruct (find _ (first :: rest)); now eexists. }
  destruct (dict_get fonts (normalize_family ff)) as [[| f1 r1] |] eqn:Hn;
    destruct (dict_get fonts "Montserrat") as [[| f2 r2] |] eqn:Hm;
    destruct fonts as [| [name [| f3 r3]] others];
    try discriminate Hn; try discriminate Hm;
    try (destruct (Hpick f1 r1) as [font1 ->]);
    try (destruct (Hpick f2 r2) as [font2 ->]);
    try (destruct (Hpick f3 r3) as [font3 ->]);
    cbn [find hd_error];
    (split; [split; [intros H; try discriminate H; reflexivity
                    | intros H; try discriminate H; reflexivity] |]);
    (split; [split;
             [ intros H; try discriminate H;
               first [ left; split; reflexivity
                     | right; split;
                       [ first [left; reflexivity | right; split; reflexivity]
                       | now exists name, others ] ]
             | intros [[H1 H2] | [[H1 | [H1 H2]] (n & o & H3)]];
               try discriminate; reflexivity ] |]);
    intros e H; try discriminate H; injection H as <-; tauto.
Qed.

Lemma lookup_failures_witness :
  snd (lookup (Some [("Lato", []); ("Acme", [mkFace "Acme" None None [Byte.x01]])])
         "Roboto" "regular" "regular")
  = Raise IndexError.
Proof.
  assert (Hw : In "regular" FONT_WEIGHTS) by (simpl; tauto).
  assert (Hs : In "regular" FONT_STYLES) by (simpl; tauto).
  apply (proj1 (proj2 (lookup_failures
           [("Lato", []); ("Acme", [mkFace "Acme" None None [Byte.x01]])]
           "Roboto" "regular" "regular" Hw Hs))).
  right. split; [right; split; reflexivity |].
  now exists "Lato", [("Acme", [mkFace "Acme" None None [Byte.x01]])].
Defined.

(** X23.  Whenever [lookup] returns, what it returns are the bytes of a
    face that is stored in the dictionary; no assumption is made on the
    dictionary. *)
Theorem lookup_returns_stored_face :
  forall (fonts : FontDict) (font_family font_weight font_style : string)
         (data : list Byte.byte),
    snd (lookup (Some fonts) font_family font_weight font_style) = Ok data ->
    exists (name : string) (family : list Face) (font : Face),
      In (name, family) fonts /\ In font family /\ bytes font = data.
Proof.
  intros fonts ff fw fs data Hrun.
  assert (Hvalid : In fw FONT_WEIGHTS /\ In fs FONT_STYLES).
  { unfold lookup in Hrun.
    destruct (PyStr.mem fw FONT_WEIGHTS) eqn:Ew; [| discriminate].
    destruct (PyStr.mem fs FONT_STYLES) eqn:Es; [| discriminate].
    split; now apply FontsSpec.mem_In. }
  destruct Hvalid as [Hw Hs].
  rewrite (lookup_outcome fonts ff fw fs Hw Hs) in Hrun. cbv zeta in Hrun.
  assert (Hfrom : forall name family,
             In (name, family) fonts ->
             match
               match find (face_matches (get_font_weight ff fw)
                                        (get_font_style ff fs)) family with
               | Some found => Some found
               | None => hd_error family
               end
             with
             | Some font => Ok (bytes font)
             | None => Raise IndexError
             end = Ok data ->
             exists (name : string) (family : list Face) (font : Face),
               In (name, family) fonts /\ In font family /\ bytes font = data).
  { intros name family Hin Hpicked.
    destruct (find _ family) as [found |] eqn:Hfind.
    - injection Hpicked as <-. exists name, family, found.
      repeat split; [assumption |]. now apply (find_some _ _ Hfind).
    - destruct family as [| first rest]; [discriminate |].
      injection Hpicked as <-. exists name, (first :: rest), first.
      repeat split; [assumption | now left]. }
  assert (Hhead : match fonts with
                  | [] => Raise StopIteration
                  | (_, family) :: _ =>
                      match
                        match find (face_matches (get_font_weight ff fw)
                                                 (get_font_style ff fs))
                                   family with
                        | Some found => Some found
                        | None => hd_error family
                        end
                      with
                      | Some font => Ok (bytes font)
                      | None => Raise IndexError
                      end
                  end = Ok data ->
                  exists (name : string) (family : list Face) (font : Face),
                    In (name, family) fonts /\ In font family
                    /\ bytes font = data).
  { destruct fonts as [| [name family] others]; [discriminate |].
    apply (Hfrom name family). now left. }
  destruct (dict_get fonts (normalize_family ff)) as [family |] eqn:Hn.
  - destruct family as [| first rest]; [now apply Hhead |].
    apply (Hfrom _ _ (FontsSpec.dict_get_In _ _ _ Hn) Hrun).
  - destruct (dict_get fonts "Montserrat") as [[| first rest] |] eqn:Hm;
      [discriminate | | now apply Hhead].
    apply (Hfrom _ _ (FontsSpec.dict_get_In _ _ _ Hm) Hrun).
Qed.

Lemma lookup_returns_stored_face_witness :
  exists (name : string) (family : list Face) (font : Face),
    In (name, family)
       [("Lato", []); ("Acme", [mkFace "Acme" None None [Byte.x01]])]
    /\ In font family /\ bytes font = [Byte.x01].
Proof.
  apply (lookup_returns_stored_face
           [("Lato", []); ("Acme", [mkFace "Acme" None None [Byte.x01]])]
           "acme" "bold" "italic").
  reflexivity.
Defined.

Lemma FONT_MAP_aliases_resolve_witness :
  normalize_family "V T323" = "Vt323" /\ normalize_family "Vt323" = "Vt323".
Proof.
  apply (proj2 FONT_MAP_aliases_resolve "V T323" "Vt323").
  simpl. tauto.
Defined.

End FontsExtra.

(** ** Canvas sizing: bounds and errors *)

Module SizingExtra.
Import Renderer.

Local Open Scope Q_scope.





End SizingExtra.

(** ** The legacy adapter: errors, array lengths and line indices *)

Module AdapterExtra.
Import Renderer.

(** What a comprehension that returned says about its body. *)
Lemma comprehension_nth {A : Type} (f : nat -> res A) (n : nat) :
  forall (start : nat) (l : list A),
    comprehension f (seq start n) = Ok l ->
    List.length l = n
    /\ forall j, (j < n)%nat ->
         exists a, nth_error l j = Some a /\ f (start + j)%nat = Ok a.
Proof.
  induction n as [| n IH]; intros start l; cbn [seq comprehension].
  - intros [= <-]. split; [reflexivity |]. intros j Hj. lia.
  - destruct (f start) as [a |] eqn:Ha; [| discriminate]. cbn [res_bind].
    destruct (comprehension f (seq (S start) n)) as [l' |] eqn:Hl;
      [| discriminate].
    cbn [res_bind]. intros [= <-]. destruct (IH _ _ Hl) as [Hlen Hnth].
    split; [cbn; lia |]. intros [| j] Hj.
    + exists a. now rewrite Nat.add_0_r.
    + destruct (Hnth j) as (b & Hb & Hfb); [lia |].
      exists b. split; [assumption |]. now rewrite Nat.add_succ_r.
Qed.

Lemma comprehension_ok_or_index {A : Type} (f : nat -> res A)
    (indices : list nat) :
  (forall i, ok_or_index (f i)) -> ok_or_index (comprehension f indices).
Proof.
  intros Hbody. induction indices as [| i rest IH]; cbn [comprehension].
  - left. now eexists.
  - destruct (Hbody i) as [[a ->] | ->]; [| now right]. cbn [res_bind].
    destruct IH as [[l ->] | ->]; [left; now eexists | now right].
Qed.

Lemma index_ok_or_index {A B : Type} (xs : list A) (i : nat) (k : A -> res B) :
  (forall x, ok_or_index (k x)) -> ok_or_index (res_bind (index xs i) k).
Proof.
  intros Hk. unfold index. destruct (nth_error xs i); [apply Hk | now right].
Qed.

Lemma index_ok_bound {A B : Type} (xs : list A) (i : nat) (k : A -> res B) (b : B) :
  res_bind (index xs i) k = Ok b -> (i < List.length xs)%nat.
Proof.
  unfold index. destruct (nth_error xs i) eqn:E; [| discriminate].
  intros _. apply nth_error_Some. congruence.
Qed.

(** A range that was indexed without an error is within the list. *)
Lemma range_within {A B : Type} (xs : list A) (k : nat -> A -> res B)
    (n : nat) (l : list B) :
  comprehension (fun i => res_bind (index xs i) (k i)) (seq 0 n) = Ok l ->
  (n <= List.length xs)%nat.
Proof.
  intros H. destruct n as [| n]; [lia |].
  destruct (comprehension_nth _ _ _ _ H) as [_ Hnth].
  destruct (Hnth n) as (b & _ & Hb); [lia |].
  apply index_ok_bound in Hb. lia.
Qed.

(** *** Newlines and line indices *)

Lemma collapse_from_no_run (x : string) :
  forall in_run, has_run_from in_run (collapse_from in_run x) = false.
Proof.
  induction x as [| c rest IH]; intros in_run; [reflexivity |].
  cbn [collapse_from]. destruct (Ascii.eqb c newline) eqn:E.
  - destruct in_run; [apply IH |].
    cbn [has_run_from]. rewrite E. cbn [orb]. apply IH.
  - cbn [has_run_from]. rewrite E. apply IH.
Qed.

Lemma collapse_from_identity (x : string) :
  forall in_run, has_run_from in_run x = false -> collapse_from in_run x = x.
Proof.
  induction x as [| c rest IH]; intros in_run; [reflexivity |].
  cbn [has_run_from collapse_from]. destruct (Ascii.eqb c newline).
  - destruct in_run; [discriminate |]. cbn [orb].
    intros H. now rewrite (IH true H).
  - intros H. now rewrite (IH false H).
Qed.

Lemma collapse_newlines_no_run (x : string) :
  PyStr.contains two_newlines (collapse_newlines x) = false.
Proof.
  pose proof (collapse_from_no_run x false) as H.
  rewrite AdapterSpec.has_run_from_contains in H. exact H.
Qed.

Lemma collapse_newlines_identity (x : string) :
  PyStr.contains two_newlines x = false -> collapse_newlines x = x.
Proof.
  intros H. apply collapse_from_identity.
  now rewrite AdapterSpec.has_run_from_contains, H.
Qed.

Lemma newline_flag_range (c : ascii) : (0 <= newline_flag c <= 1)%Z.
Proof. unfold newline_flag. destruct (Ascii.eqb c newline); lia. Qed.

(** An entry is the one before it, plus one at a newline. *)
Lemma accumulate_from_succ (cs : list ascii) :
  forall (total : Z) (p : nat),
    (S p < List.length cs)%nat ->
    nth (S p) (accumulate_from total (map newline_flag cs)) 0%Z
    = (nth p (accumulate_from total (map newline_flag cs)) 0
       + newline_flag (nth (S p) cs newline))%Z.
Proof.
  induction cs as [| c rest IH]; intros total p Hp; cbn [List.length] in Hp;
    [lia |].
  cbn [map accumulate_from]. destruct p as [| p].
  - destruct rest as [| c' rest']; cbn [List.length] in Hp; [lia |].
    reflexivity.
  - change (nth (S (S p)) (c :: rest) newline) with (nth (S p) rest newline).
    cbn [nth]. apply IH. lia.
Qed.

Lemma accumulate_from_zero (c : ascii) (rest : list ascii) (total : Z) :
  nth 0 (accumulate_from total (map newline_flag (c :: rest))) 0%Z
  = (total + newline_flag c)%Z.
Proof. reflexivity. Qed.

(** *** Types *)

Lemma to_upper_T (c : ascii) :
  PyStr.to_upper c = "T"%char <-> c = "t"%char \/ c = "T"%char.
Proof.
  split.
  - destruct c as [[] [] [] [] [] [] [] []]; vm_compute; intros H;
      solve [discriminate H | now left | now right].
  - intros [-> | ->]; reflexivity.
Qed.

Lemma capitalize_first_TextElement (x : string) :
  capitalize_first x = "TextElement"
  <-> x = "textElement" \/ x = "TextElement".
Proof.
  split.
  - destruct x as [| c rest]; [discriminate |]. cbn [capitalize_first].
    intros [= Hc ->]. apply to_upper_T in Hc as [-> | ->]; tauto.
  - intros [-> | ->]; reflexivity.
Qed.

Section Conversion.

Variables Color Opacity : Type.
Variable format_rgba : Color -> Opacity -> string.

(** The comprehensions of a conversion that returned. *)
Lemma convert_to_v5_inv (example : V4Example Color Opacity) (v : V5Example) :
  convert_to_v5 format_rgba example = Ok v ->
  comprehension
    (fun i => res_bind (index (v4_type example) i)
                (fun x => Ok (capitalize_first x)))
    (range (v4_length example)) = Ok (type v)
  /\ comprehension
       (fun i =>
          res_bind (index (v4_color example) i) (fun color =>
          res_bind (index (v4_opacity example) i) (fun opacity =>
          res_bind (index (map collapse_newlines (v4_text example)) i)
            (fun text_i =>
          Ok (repeat (format_rgba color opacity) (String.length text_i))))))
       (range (v4_length example)) = Ok (text_color v)
  /\ comprehension
       (fun i =>
          res_bind (index (map collapse_newlines (v4_text example)) i)
            (fun text_i =>
          Ok (accumulate (map newline_flag (list_ascii_of_string text_i)))))
       (range (v4_length example)) = Ok (text_line v)
  /\ comprehension
       (fun i =>
          res_bind (index (v4_text example) i) (fun x =>
          Ok (repeat false (String.length x))))
       (range (v4_length example)) = Ok (font_bold v)
  /\ font_italic v = font_bold v
  /\ text v = map collapse_newlines (v4_text example)
  /\ length v = v4_length example
  /\ capitalize v
     = map (fun x => String.eqb x "true") (v4_capitalize example).
Proof.
  unfold convert_to_v5. intros H.
  repeat match type of H with
         | res_bind ?c _ = Ok _ =>
             destruct c eqn:?; [cbn [res_bind] in H | discriminate H]
         end.
  injection H as <-. cbn. repeat split.
Qed.

Lemma convert_to_v5_ok_or_index (example : V4Example Color Opacity) :
  ok_or_index (convert_to_v5 format_rgba example).
Proof.
  unfold convert_to_v5.
  repeat match goal with
         | |- ok_or_index (res_bind (comprehension ?f ?idx) _) =>
             let H := fresh in
             assert (H : ok_or_index (comprehension f idx));
             [ apply comprehension_ok_or_index; intros i;
               repeat (apply index_ok_or_index; intros ?);
               left; now eexists
             | destruct H as [[? ->] | ->]; [cbn [res_bind] | now right] ]
         end.
  left. now eexists.
Qed.

(** X13.  A legacy record in which one of the arrays [type], [text],
    [color] and [opacity] has fewer entries than [length] makes the
    conversion raise [IndexError], and the conversion raises no other
    exception. *)
Theorem convert_to_v5_index_error :
  forall example : V4Example Color Opacity,
    (~ well_formed example ->
     convert_to_v5 format_rgba example = Raise IndexError)
    /\ forall e, convert_to_v5 format_rgba example = Raise e -> e = IndexError.
Proof.
  intros example.
  assert (Hinv : (exists v, convert_to_v5 format_rgba example = Ok v) ->
                 well_formed example).
  { intros [v Hv].
    destruct (convert_to_v5_inv example v Hv)
      as (Htype & Hcolor & Hline & Hbold & _).
    unfold range in *. unfold well_formed. cbv zeta.
    pose proof (range_within _ _ _ _ Htype) as H1.
    pose proof (range_within _ _ _ _ Hbold) as H2.
    pose proof (range_within _ _ _ _ Hcolor) as H3.
    assert (H4 : (Z.to_nat (v4_length example)
                  <= List.length (v4_opacity example))%nat).
    { destruct (Z.to_nat (v4_length example)) as [| n] eqn:En; [lia |].
      destruct (comprehension_nth _ _ _ _ Hcolor) as [_ Hnth].
      destruct (Hnth n) as (b & _ & Hb); [lia |]. cbn [Nat.add] in Hb.
      unfold index at 1 in Hb.
      destruct (nth_error (v4_color example) n); [| discriminate].
      cbn [res_bind] in Hb. apply index_ok_bound in Hb. lia. }
    repeat split; assumption. }
  destruct (convert_to_v5_ok_or_index example) as [Hok | Hraise].
  - split; [intros Hnot; now apply Hinv in Hok |].
    destruct Hok as [v ->]. discriminate.
  - split; [intros _; assumption |]. rewrite Hraise. now intros e [= <-].
Qed.

(** X14.  A conversion that returns gives the arrays [type], [text_color],
    [text_line], [font_bold] and [font_italic] exactly [length] entries,
    whatever the arrays of the legacy record hold beyond, while [text] and
    [capitalize] keep one entry for each entry of the legacy arrays. *)
Theorem convert_to_v5_lengths :
  forall (example : V4Example Color Opacity) (v : V5Example),
    convert_to_v5 format_rgba example = Ok v ->
    let n := Z.to_nat (v4_length example) in
    length v = v4_length example
    /\ List.length (type v) = n
    /\ List.length (text_color v) = n
    /\ List.length (text_line v) = n
    /\ List.length (font_bold v) = n
    /\ List.length (font_italic v) = n
    /\ List.length (text v) = List.length (v4_text example)
    /\ List.length (capitalize v) = List.length (v4_capitalize example).
Proof.
  intros example v Hv n.
  destruct (convert_to_v5_inv example v Hv)
    as (Htype & Hcolor & Hline & Hbold & Hitalic & Htext & Hlen & Hcap).
  unfold range in *.
  split; [assumption |].
  split; [apply (comprehension_nth _ _ _ _ Htype) |].
  split; [apply (comprehension_nth _ _ _ _ Hcolor) |].
  split; [apply (comprehension_nth _ _ _ _ Hline) |].
  split; [apply (comprehension_nth _ _ _ _ Hbold) |].
  split; [rewrite Hitalic; apply (comprehension_nth _ _ _ _ Hbold) |].
  rewrite Htext, Hcap, !length_map. split; reflexivity.
Qed.

(** X15.  No text of a converted record has two newlines in a row, and a
    text that had none is taken over unchanged. *)
Theorem convert_to_v5_text_collapsed :
  forall (example : V4Example Color Opacity) (v : V5Example),
    convert_to_v5 format_rgba example = Ok v ->
    (forall t, In t (text v) -> PyStr.contains two_newlines t = false)
    /\ (forall i x,
          nth_error (v4_text example) i = Some x ->
          PyStr.contains two_newlines x = false ->
          nth_error (text v) i = Some x).
Proof.
  intros example v Hv.
  destruct (convert_to_v5_inv example v Hv) as (_ & _ & _ & _ & _ & Htext & _).
  rewrite Htext. split.
  - intros t Hin. apply in_map_iff in Hin as (x & <- & _).
    apply collapse_newlines_no_run.
  - intros i x Hx Hrun. rewrite nth_error_map, Hx. cbn.
    now rewrite (collapse_newlines_identity x Hrun).
Qed.

(** X16.  For an element whose legacy text has no two newlines in a row,
    the converted text is the legacy text and the four per-character
    arrays are as long as it. *)
Theorem convert_to_v5_aligned :
  forall (example : V4Example Color Opacity) (i : nat) (x : string),
    well_formed example ->
    (i < Z.to_nat (v4_length example))%nat ->
    nth_error (v4_text example) i = Some x ->
    PyStr.contains two_newlines x = false ->
    exists (v : V5Example) (bold italic : list bool) (color : list string)
           (line : list Z),
      convert_to_v5 format_rgba example = Ok v
      /\ nth_error (text v) i = Some x
      /\ nth_error (font_bold v) i = Some bold
      /\ nth_error (font_italic v) i = Some italic
      /\ nth_error (text_color v) i = Some color
      /\ nth_error (text_line v) i = Some line
      /\ List.length bold = String.length x
      /\ List.length italic = String.length x
      /\ List.length color = String.length x
      /\ List.length line = String.length x.
Proof.
  intros example i x Hwf Hi Hx Hrun.
  destruct (AdapterSpec.convert_to_v5_element _ _ format_rgba example Hwf)
    as (v & Hv & _ & Helement).
  destruct (Helement i x Hi Hx)
    as (Htext & Hline & Hbold & Hitalic & color & opacity & Hcolor).
  rewrite (collapse_newlines_identity x Hrun) in *.
  exists v. do 4 eexists.
  repeat (split; [eassumption |]).
  rewrite !repeat_length. unfold accumulate.
  rewrite AdapterSpec.accumulate_from_length, length_map,
    AdapterSpec.length_list_ascii.
  repeat split.
Qed.

(** X17.  In the [text_line] array of an element the first entry is 1 when
    the converted text starts with a newline and 0 otherwise, and every
    other entry is the entry before it, plus 1 when the character at its
    position is a newline: the entries never decrease, and a newline
    carries the index of the line it opens. *)
Theorem text_line_steps :
  forall (example : V4Example Color Opacity) (i : nat) (x : string),
    well_formed example ->
    (i < Z.to_nat (v4_length example))%nat ->
    nth_error (v4_text example) i = Some x ->
    exists (v : V5Example) (line : list Z),
      convert_to_v5 format_rgba example = Ok v
      /\ nth_error (text_line v) i = Some line
      /\ let cs := list_ascii_of_string (collapse_newlines x) in
         (cs <> [] -> nth 0 line 0%Z = newline_flag (nth 0 cs newline))
         /\ forall p, (S p < List.length cs)%nat ->
              nth (S p) line 0%Z
              = (nth p line 0 + newline_flag (nth (S p) cs newline))%Z
              /\ (nth p line 0 <= nth (S p) line 0 <= nth p line 0 + 1)%Z.
Proof.
  intros example i x Hwf Hi Hx.
  destruct (AdapterSpec.convert_to_v5_element _ _ format_rgba example Hwf)
    as (v & Hv & _ & Helement).
  destruct (Helement i x Hi Hx) as (_ & Hline & _).
  exists v. eexists. split; [exact Hv |]. split; [exact Hline |].
  cbv zeta. unfold accumulate. split.
  - destruct (list_ascii_of_string (collapse_newlines x)) as [| c rest];
      [congruence |].
    intros _. now rewrite accumulate_from_zero.
  - intros p Hp. rewrite (accumulate_from_succ _ 0%Z p Hp).
    pose proof (newline_flag_range
                  (nth (S p) (list_ascii_of_string (collapse_newlines x))
                       newline)).
    split; [reflexivity | lia].
Qed.

(** X18.  An element of a converted record goes to the text renderer
    exactly when its legacy type is "textElement" or "TextElement" and
    text rendering is on: the conversion capitalizes the first letter of
    the type and nothing else, and the renderer compares the type with
    "TextElement". *)
Theorem legacy_text_dispatch :
  forall (example : V4Example Color Opacity) (v : V5Example) (i : nat)
         (x : string) (render_text : bool),
    convert_to_v5 format_rgba example = Ok v ->
    (i < Z.to_nat (v4_length example))%nat ->
    nth_error (v4_type example) i = Some x ->
    exists type_name,
      nth_error (type v) i = Some type_name
      /\ type_name = capitalize_first x
      /\ String.length type_name = String.length x
      /\ (renders_text type_name true render_text = true
          <-> (x = "textElement" \/ x = "TextElement") /\ render_text = true).
Proof.
  intros example v i x render_text Hv Hi Hx.
  destruct (convert_to_v5_inv example v Hv) as (Htype & _).
  unfold range in Htype.
  destruct (comprehension_nth _ _ _ _ Htype) as [_ Hnth].
  destruct (Hnth i Hi) as (type_name & Hname & Hbody). cbn [Nat.add] in Hbody.
  unfold index in Hbody. rewrite Hx in Hbody. cbn [res_bind] in Hbody.
  injection Hbody as <-.
  exists (capitalize_first x). split; [assumption |]. split; [reflexivity |].
  split; [now destruct x |].
  unfold renders_text. rewrite andb_true_r.
  rewrite andb_true_iff, String.eqb_eq, capitalize_first_TextElement.
  reflexivity.
Qed.

End Conversion.

Lemma convert_to_v5_lengths_witness :
  exists v : V5Example,
    convert_to_v5 (fun (_ : list Z) (_ : Q) => "rgba(0,0,0,1.0)")
      (mkV4 1 ["textElement"; "imageElement"]
          [("a" ++ String newline (String newline "b"))%string; "extra"]
          [[0; 0; 0]%Z] [1%Q] ["true"; "false"])
    = Ok v
    /\ List.length (text_line v) = 1%nat
    /\ List.length (text v) = 2%nat.
Proof.
  eexists. split; [reflexivity |].
  pose proof (convert_to_v5_lengths (list Z) Q (fun (_ : list Z) (_ : Q) => "rgba(0,0,0,1.0)")
      (mkV4 1 ["textElement"; "imageElement"]
          [("a" ++ String newline (String newline "b"))%string; "extra"]
          [[0; 0; 0]%Z] [1%Q] ["true"; "false"]) _ eq_refl)
    as (_ & _ & _ & Hline & _ & _ & Htext & _).
  split; [exact Hline | exact Htext].
Defined.

Lemma convert_to_v5_text_collapsed_witness :
  exists v : V5Example,
    convert_to_v5 (fun (_ : list Z) (_ : Q) => "rgba(0,0,0,1.0)")
      (mkV4 1 ["textElement"; "imageElement"]
          [("a" ++ String newline (String newline "b"))%string; "extra"]
          [[0; 0; 0]%Z] [1%Q] ["true"; "false"])
    = Ok v
    /\ forall t, In t (text v) -> PyStr.contains two_newlines t = false.
Proof.
  eexists. split; [reflexivity |].
  apply (convert_to_v5_text_collapsed (list Z) Q (fun (_ : list Z) (_ : Q) => "rgba(0,0,0,1.0)")
      (mkV4 1 ["textElement"; "imageElement"]
          [("a" ++ String newline (String newline "b"))%string; "extra"]
          [[0; 0; 0]%Z] [1%Q] ["true"; "false"]) _ eq_refl).
Defined.

Lemma convert_to_v5_aligned_witness :
  exists (v : V5Example) (bold : list bool) (line : list Z),
    convert_to_v5 (fun (_ : list Z) (_ : Q) => "rgba(0,0,0,1.0)")
      (mkV4 1 ["textElement"] [("ab" ++ String newline "cd")%string]
          [[0; 0; 0]%Z] [1%Q] ["false"])
    = Ok v
    /\ nth_error (font_bold v) 0 = Some bold
    /\ nth_error (text_line v) 0 = Some line
    /\ List.length bold = 5%nat /\ List.length line = 5%nat.
Proof.
  destruct (convert_to_v5_aligned (list Z) Q (fun (_ : list Z) (_ : Q) => "rgba(0,0,0,1.0)")
      (mkV4 1 ["textElement"] [("ab" ++ String newline "cd")%string]
          [[0; 0; 0]%Z] [1%Q] ["false"]) 0%nat ("ab" ++ String newline "cd")%string)
    as (v & bold & italic & color & line & Hv & _ & Hbold & _ & _ & Hline
        & Hlb & _ & _ & Hll).
  - unfold well_formed. cbn. lia.
  - cbn. lia.
  - reflexivity.
  - reflexivity.
  - exists v, bold, line. repeat split; assumption.
Defined.

Lemma text_line_steps_witness :
  exists (v : V5Example) (line : list Z),
    convert_to_v5 (fun (_ : list Z) (_ : Q) => "rgba(0,0,0,1.0)")
      (mkV4 1 ["textElement"] [("ab" ++ String newline "cd")%string]
          [[0; 0; 0]%Z] [1%Q] ["false"])
    = Ok v
    /\ nth_error (text_line v) 0 = Some line
    /\ nth 2 line 0%Z = (nth 1 line 0 + 1)%Z.
Proof.
  destruct (text_line_steps (list Z) Q (fun (_ : list Z) (_ : Q) => "rgba(0,0,0,1.0)")
      (mkV4 1 ["textElement"] [("ab" ++ String newline "cd")%string]
          [[0; 0; 0]%Z] [1%Q] ["false"]) 0%nat ("ab" ++ String newline "cd")%string)
    as (v & line & Hv & Hline & _ & Hstep).
  - unfold well_formed. cbn. lia.
  - cbn. lia.
  - reflexivity.
  - exists v, line. split; [exact Hv |]. split; [exact Hline |].
    apply (Hstep 1%nat). cbn. lia.
Defined.

Lemma legacy_text_dispatch_witness :
  exists (v : V5Example) (type_name : string),
    convert_to_v5 (fun (_ : list Z) (_ : Q) => "rgba(0,0,0,1.0)")
      (mkV4 1 ["textElement"; "imageElement"]
          [("a" ++ String newline (String newline "b"))%string; "extra"]
          [[0; 0; 0]%Z] [1%Q] ["true"; "false"])
    = Ok v
    /\ nth_error (type v) 0 = Some type_name
    /\ renders_text type_name true true = true.
Proof.
  eexists.
  destruct (legacy_text_dispatch (list Z) Q (fun (_ : list Z) (_ : Q) => "rgba(0,0,0,1.0)")
      (mkV4 1 ["textElement"; "imageElement"]
          [("a" ++ String newline (String newline "b"))%string; "extra"]
          [[0; 0; 0]%Z] [1%Q] ["true"; "false"]) _ 0%nat "textElement" true eq_refl)
    as (type_name & Hname & _ & _ & Hdispatch).
  - cbn. lia.
  - reflexivity.
  - exists type_name. split; [reflexivity |]. split; [exact Hname |].
    apply Hdispatch. split; [now left | reflexivity].
Defined.

Lemma convert_to_v5_index_error_witness :
  convert_to_v5 (fun (_ : list Z) (_ : Q) => "rgba(0,0,0,1.0)")
    (mkV4 2 ["textElement"; "imageElement"] ["only one"]
          [[0; 0; 0]%Z; [0; 0; 0]%Z] [1%Q; 1%Q] ["false"; "false"])
  = Raise IndexError.
Proof.
  apply (proj1 (convert_to_v5_index_error (list Z) Q _ _)).
  unfold well_formed. cbn. lia.
Defined.

End AdapterExtra.

(** ** Text properties and elements: validation *)

Module SchemaExtra.
Import Schema.

Local Open Scope Q_scope.

Lemma field_errors_empty (data : TextProperty) :
  field_errors data = [] <->
  0 < fontSize data /\ 0 < lineHeight data
  /\ In (textAlign data) TEXT_ALIGN
  /\ match wordBreak data with
     | Some w => In w WORD_BREAK
     | None => True
     end.
Proof.
  split.
  - unfold field_errors.
    destruct (Qlt_le_dec 0 (fontSize data)); [| discriminate].
    destruct (Qlt_le_dec 0 (lineHeight data)); [| discriminate].
    destruct (PyStr.mem (textAlign data) TEXT_ALIGN) eqn:Ealign;
      [| discriminate].
    apply FontsSpec.mem_In in Ealign.
    destruct (wordBreak data) as [w |]; [| tauto].
    destruct (PyStr.mem w WORD_BREAK) eqn:Ebreak; [| discriminate].
    apply FontsSpec.mem_In in Ebreak. tauto.
  - intros (H1 & H2 & H3 & H4). now apply SchemaSpec.field_errors_valid.
Qed.

(** X19.  The construction of a [TextProperty] returns exactly when
    [fontSize] and [lineHeight] are positive, [textAlign] is one of the
    four alignments and [wordBreak], when given, is one of its two values;
    otherwise it raises a [ValidationError] that names at least one
    field. *)
Theorem TextProperty_validation :
  forall (replace_charrefs : string -> string) (data : TextProperty),
    ((exists self, TextProperty_new replace_charrefs data = Ok self)
     <-> 0 < fontSize data /\ 0 < lineHeight data
         /\ In (textAlign data) TEXT_ALIGN
         /\ match wordBreak data with
            | Some w => In w WORD_BREAK
            | None => True
            end)
    /\ ((forall self, TextProperty_new replace_charrefs data <> Ok self) ->
        exists field fields,
          TextProperty_new replace_charrefs data
          = Raise (ValidationError (field :: fields))).
Proof.
  intros rc data. rewrite <- field_errors_empty. unfold TextProperty_new.
  destruct (field_errors data) as [| field fields].
  - split; [split; [reflexivity | now eexists] |].
    intros H. exfalso. now apply (H _ eq_refl).
  - split; [split; [intros [self [=]] | discriminate] |].
    intros _. now exists field, fields.
Qed.

Lemma TextProperty_validation_witness :
  exists field fields,
    TextProperty_new (fun s => s)
      (mkTextProperty "abc" 0 "Montserrat" (6 # 5) "middle" false 0 []
         None None None None None None None None None None None)
    = Raise (ValidationError (field :: fields)).
Proof.
  apply (proj2 (TextProperty_validation (fun s => s)
      (mkTextProperty "abc" 0 "Montserrat" (6 # 5) "middle" false 0 []
         None None None None None None None None None None None))).
  intros self. discriminate.
Defined.

(** X20.  A construction that returns changes two fields at most: [text],
    which is unescaped (and kept as it is when it has no ampersand), and
    [lineMap], which is kept when it is given, the empty list included.
    Every other field is the one that was passed. *)
Theorem TextProperty_fields_kept :
  forall (replace_charrefs : string -> string) (data self : TextProperty),
    TextProperty_new replace_charrefs data = Ok self ->
    (PyStr.contains "&" (text data) = false -> text self = text data)
    /\ (forall given, lineMap data = Some given -> lineMap self = Some given)
    /\ fontSize self = fontSize data /\ font self = font data
    /\ lineHeight self = lineHeight data /\ textAlign self = textAlign data
    /\ capitalize self = capitalize data
    /\ letterSpacing self = letterSpacing data
    /\ colorMap self = colorMap data /\ wordBreak self = wordBreak data
    /\ underline self = underline data /\ boldMap self = boldMap data
    /\ italicMap self = italicMap data
    /\ underlineMap self = underlineMap data /\ linkMap self = linkMap data
    /\ opacityMap self = opacityMap data /\ weightMap self = weightMap data
    /\ styleMap self = styleMap data /\ effects self = effects data.
Proof.
  intros rc data self. unfold TextProperty_new.
  destruct (field_errors data); [| discriminate]. intros [= <-].
  unfold check_linemap. cbn [lineMap].
  destruct (lineMap data) as [given |] eqn:E; cbn.
  - split; [apply SchemaSpec.html_unescape_plain |].
    split; [intros g [= <-]; reflexivity |]. repeat split.
  - split; [apply SchemaSpec.html_unescape_plain |].
    split; [discriminate |]. repeat split.
Qed.

Lemma TextProperty_fields_kept_witness :
  exists self : TextProperty,
    TextProperty_new (fun s => s)
      (mkTextProperty "abc" 12 "Montserrat" (6 # 5) "center" false 0 []
         None None None None None None (Some []) None None None None)
    = Ok self
    /\ text self = "abc" /\ lineMap self = Some [].
Proof.
  eexists. split; [reflexivity |].
  destruct (TextProperty_fields_kept (fun s => s)
      (mkTextProperty "abc" 12 "Montserrat" (6 # 5) "center" false 0 []
         None None None None None None (Some []) None None None None)
      _ eq_refl) as (Htext & Hmap & _).
  split; [now apply Htext | now apply Hmap].
Defined.

Lemma design_errors_empty (data : DesignElementData) :
  design_errors data = [] <->
  0 < data_width data /\ 0 < data_height data
  /\ match data_opacity data with
     | Some given => 0 <= given /\ given <= 1
     | None => True
     end.
Proof.
  unfold design_errors.
  destruct (Qlt_le_dec 0 (data_width data)) as [Hw | Hw];
    [| split; [discriminate | intros (H & _); lra]].
  destruct (Qlt_le_dec 0 (data_height data)) as [Hh | Hh];
    [| split; [discriminate | intros (_ & H & _); lra]].
  destruct (data_opacity data) as [given |]; [| tauto].
  destruct (Qle_bool 0 given) eqn:E0; destruct (Qle_bool given 1) eqn:E1;
    cbn [andb app];
    try (apply Qle_bool_iff in E0); try (apply Qle_bool_iff in E1);
    try tauto.
  all: split; [discriminate | intros (_ & _ & H0 & H1)].
  - apply Qle_bool_iff in H1. congruence.
  - apply Qle_bool_iff in H0. congruence.
  - apply Qle_bool_iff in H0. congruence.
Qed.

(** X21.  The construction of a [TextElement] returns exactly when its
    type is "textElement", its width and height are positive, its opacity,
    when given, is between 0 and 1, and its text properties are valid.
    The element it returns has a [lineMap], and the defaults where no
    value was given: angle, left and top 0, opacity 1. *)
Theorem TextElement_validation :
  forall (replace_charrefs : string -> string) (data : DesignElementData)
         (text_data : TextProperty),
    ((exists self, TextElement_new replace_charrefs data text_data = Ok self)
     <-> data_type data = "textElement"
         /\ 0 < data_width data /\ 0 < data_height data
         /\ match data_opacity data with
            | Some given => 0 <= given /\ given <= 1
            | None => True
            end
         /\ exists properties,
              TextProperty_new replace_charrefs text_data = Ok properties)
    /\ forall self,
         TextElement_new replace_charrefs data text_data = Ok self ->
         TextProperty_new replace_charrefs text_data = Ok (properties self)
         /\ lineMap (properties self) <> None
         /\ width (element self) = data_width data
         /\ height (element self) = data_height data
         /\ (data_angle data = None -> angle (element self) = 0)
         /\ (data_left data = None -> left (element self) = 0)
         /\ (data_top data = None -> top (element self) = 0)
         /\ (data_opacity data = None -> opacity (element self) = 1).
Proof.
  intros rc data text_data.
  assert (Happ : forall a b c : list string,
             a ++ b ++ c = [] <-> a = [] /\ b = [] /\ c = []).
  { intros a b c. split.
    - intros H. apply app_eq_nil in H as [-> H].
      apply app_eq_nil in H as [-> ->]. tauto.
    - intros (-> & -> & ->). reflexivity. }
  assert (Htype : (if String.eqb (data_type data) "textElement"
                   then [] else ["type"]) = []
                  <-> data_type data = "textElement").
  { destruct (String.eqb (data_type data) "textElement") eqn:E.
    - apply String.eqb_eq in E. tauto.
    - apply String.eqb_neq in E. split; [discriminate | tauto]. }
  assert (Hnew : (exists properties, TextProperty_new rc text_data = Ok properties)
                 <-> field_errors text_data = []).
  { unfold TextProperty_new. destruct (field_errors text_data).
    - split; [reflexivity | now eexists].
    - split; [intros [p [=]] | discriminate]. }
  pose proof (design_errors_empty data) as Hdesign.
  split.
  - rewrite Hnew. unfold TextElement_new.
    destruct (field_errors text_data ++ _ ++ design_errors data) eqn:E.
    + apply Happ in E as (E1 & E2 & E3). split; [tauto |]. intros _.
      apply Hnew in E1 as [p ->]. now eexists.
    + split; [intros [self [=]] |]. intros (H1 & H2 & H3 & H4 & H5).
      assert (Hnil : field_errors text_data
                     ++ (if String.eqb (data_type data) "textElement" then []
                         else ["type"])
                     ++ design_errors data = []) by (apply Happ; tauto).
      congruence.
  - intros self. unfold TextElement_new.
    destruct (field_errors text_data ++ _ ++ design_errors data) eqn:E;
      [| discriminate].
    destruct (TextProperty_new rc text_data) as [p |] eqn:Ep; [| discriminate].
    cbn [res_bind]. intros [= <-]. cbn [properties element].
    split; [reflexivity |]. split.
    + unfold TextProperty_new in Ep.
      destruct (field_errors text_data); [| discriminate].
      injection Ep as <-. unfold check_linemap. cbn [lineMap].
      destruct (lineMap text_data) eqn:El; cbn [lineMap]; congruence.
    + unfold validated. cbn. repeat split; now intros ->.
Qed.

Lemma TextElement_validation_witness :
  exists self : TextElement,
    TextElement_new (fun s => s)
      (mkDesignElementData "" "textElement" 120 40 None None None None)
      (mkTextProperty "abc" 12 "Montserrat" (6 # 5) "center" false 0 []
         None None None None None None None None None None None)
    = Ok self
    /\ opacity (element self) = 1.
Proof.
  eexists. split; [reflexivity |].
  destruct (proj2 (TextElement_validation (fun s => s)
      (mkDesignElementData "" "textElement" 120 40 None None None None)
      (mkTextProperty "abc" 12 "Montserrat" (6 # 5) "center" false 0 []
         None None None None None None None None None None None))
      _ eq_refl) as (_ & _ & _ & _ & _ & _ & _ & Hopacity).
  now apply Hopacity.
Defined.

End SchemaExtra.

(** ** Canvas sizing on binary64 *)

Module Binary64Spec.
Import PrimFloat SpecFloat FloatOps FloatAxioms.
Import Binary64.

Lemma SF64mul_comm (x y : spec_float) : SF64mul x y = SF64mul y x.
Proof.
  unfold SF64mul, SFmul.
  destruct x as [sx | sx | | sx mx ex], y as [sy | sy | | sy my ey];
    try reflexivity; try (now rewrite (xorb_comm sx sy)).
  now rewrite (xorb_comm sx sy), (Pos.mul_comm mx my), (Z.add_comm ex ey).
Qed.

(** The product of two floats does not depend on their order. *)
Lemma mul_comm (x y : float) : mul x y = mul y x.
Proof.
  rewrite <- (SF2Prim_Prim2SF (mul x y)), <- (SF2Prim_Prim2SF (mul y x)).
  now rewrite !mul_spec, SF64mul_comm.
Qed.

Lemma ltb_leb (x y : float) : ltb x y = true -> leb x y = true.
Proof.
  rewrite ltb_spec, leb_spec. unfold SFltb, SFleb.
  now destruct (SFcompare (Prim2SF x) (Prim2SF y)) as [[] |].
Qed.

(** The fit scale is at most 1, and it is a number. *)
Lemma fit_le_one (width height : float) (max_size : option Z) (s : float) :
  fit width height max_size = Ok s -> leb s one = true.
Proof.
  unfold fit. destruct max_size as [m |]; [| now intros [= <-]].
  destruct (of_int m) as [converted |]; [| discriminate]. cbn [res_bind].
  destruct (true_div converted (py_max width height)) as [q |];
    [| discriminate].
  cbn [res_bind]. intros [= <-]. unfold py_min.
  destruct (ltb q one) eqn:E; [now apply ltb_leb | reflexivity].
Qed.

(** The scale and the pixel size the function computes for one axis. *)
Lemma axis_run (dim s scale : float) (pixels : Z) :
  axis dim s scale pixels ->
  res_bind (py_round (mul dim s)) (fun rounded =>
    if (rounded <=? 0)%Z then true_div one dim else Ok s) = Ok scale
  /\ py_round (mul scale dim) = Ok pixels.
Proof.
  intros (rounded & Hround & [(Hpos & -> & ->) | (Hneg & Hzero & -> & Hpixels)]).
  - rewrite (mul_comm dim s), Hround. cbn [res_bind].
    apply Z.leb_gt in Hpos. rewrite Hpos. now split.
  - rewrite (mul_comm dim s), Hround. cbn [res_bind].
    apply Z.leb_le in Hneg. rewrite Hneg. unfold true_div. rewrite Hzero.
    now split.
Qed.

Lemma get_scale_size_axes (width height : float) (max_size : option Z)
    (s sx sy : float) (px py : Z) :
  fit width height max_size = Ok s ->
  axis width s sx px -> axis height s sy py ->
  _get_scale_size width height max_size
  = if (0 <? px)%Z && (0 <? py)%Z
    then Ok ((sx, sy), (px, py))
    else Raise (AssertionError "Failed to get scale").
Proof.
  intros Hfit Hx Hy. unfold _get_scale_size.
  change (match max_size with
          | None => Ok one
          | Some m =>
              res_bind (of_int m) (fun converted =>
              res_bind (true_div converted (py_max width height)) (fun q =>
              Ok (py_min one q)))
          end) with (fit width height max_size).
  rewrite Hfit. cbn [res_bind].
  destruct (axis_run width s sx px Hx) as [-> Hpx].
  destruct (axis_run height s sy py Hy) as [-> Hpy].
  cbn [res_bind]. rewrite Hpx. cbn [res_bind]. rewrite Hpy. reflexivity.
Qed.

Local Open Scope float_scope.




(** X25.  When the rounded dimension is positive on both axes, both axes
    get the same scale, the fit scale, which is at most 1 (the canvas is
    never enlarged), and the size is the two rounded dimensions. *)
Theorem get_scale_size_uniform :
  forall (width height : float) (max_size : option Z) (s : float)
         (px py : Z),
    fit width height max_size = Ok s ->
    py_round (s * width) = Ok px -> py_round (s * height) = Ok py ->
    (0 < px)%Z -> (0 < py)%Z ->
    _get_scale_size width height max_size = Ok ((s, s), (px, py))
    /\ (s <=? 1) = true.
Proof.
  intros width height max_size s px py Hfit Hx Hy Hpx Hpy. split.
  - rewrite (get_scale_size_axes width height max_size s s s px py Hfit).
    + apply Z.ltb_lt in Hpx, Hpy. now rewrite Hpx, Hpy.
    + exists px. split; [assumption |]. left. repeat split. assumption.
    + exists py. split; [assumption |]. left. repeat split. assumption.
  - now apply (fit_le_one width height max_size).
Qed.

Lemma get_scale_size_uniform_witness :
  _get_scale_size 528 11 (Some 360%Z)
  = Ok ((360 / 528, 360 / 528), (360%Z, 7%Z))
  /\ (360 / 528 <=? 1) = true.
Proof.
  apply (get_scale_size_uniform 528 11 (Some 360%Z) (360 / 528) 360%Z 7%Z);
    reflexivity.
Defined.

End Binary64Spec.
